(** * README.AI: the project-structure analyzer of [app.py]

    A shallow embedding of the three analyzer functions of [src/app.py]:
    [fetch_github_repo_structure], [fetch_github_file_content] and
    [analyze_local_directory], with the string helpers of the Python
    library they call.

    Conventions.
    - A Python [str] is a [string]; [str.lower] acts on the ASCII letters.
    - A Python [dict] keyed by strings is a [gmap string _].
    - Python integers that count things are [nat]; other integers are [Z].
    - Paths follow the POSIX flavour of [os.path] and [pathlib]. *)

From Stdlib Require Import Ascii NArith ZArith Lia.
From stdpp Require Import base list strings gmap pretty.

(** ** Python string helpers *)

Module Py.

(** [str.lower], on ASCII. *)
Definition lower_char (c : ascii) : ascii :=
  let n := N_of_ascii c in
  if ((65 <=? n) && (n <=? 90))%N then ascii_of_N (n + 32) else c.

Fixpoint lower (s : string) : string :=
  match s with
  | EmptyString => EmptyString
  | String c s' => String (lower_char c) (lower s')
  end.

Definition is_upper (c : ascii) : bool :=
  let n := N_of_ascii c in ((65 <=? n) && (n <=? 90))%N.

(** No character of [s] is an upper-case letter. *)
Fixpoint is_lowercase (s : string) : bool :=
  match s with
  | EmptyString => true
  | String c s' => negb (is_upper c) && is_lowercase s'
  end.

(** [s.startswith(p)] *)
Fixpoint startswith (s p : string) {struct p} : bool :=
  match p, s with
  | EmptyString, _ => true
  | String _ _, EmptyString => false
  | String a p', String b s' => if Ascii.eqb a b then startswith s' p' else false
  end.

(** [p in s] for strings: [p] occurs in [s] at some position. *)
Fixpoint contains (s p : string) : bool :=
  startswith s p ||
  match s with
  | EmptyString => false
  | String _ s' => contains s' p
  end.

(** [x in l] for a list of strings. *)
Definition in_list (x : string) (l : list string) : bool :=
  existsb (String.eqb x) l.

(** [s[n:]] and [s[:n]] for [0 <= n]. *)
Fixpoint drop (n : nat) (s : string) : string :=
  match n, s with
  | O, _ => s
  | S _, EmptyString => EmptyString
  | S n', String _ s' => drop n' s'
  end.

Fixpoint take (n : nat) (s : string) : string :=
  match n, s with
  | O, _ => EmptyString
  | S _, EmptyString => EmptyString
  | S n', String c s' => String c (take n' s')
  end.

(** [s.rfind(c)] for a one-character [c]: the highest index, or [-1]. *)
Fixpoint rfind (s : string) (c : ascii) : Z :=
  match s with
  | EmptyString => (-1)%Z
  | String a s' =>
      let r := rfind s' c in
      if (0 <=? r)%Z then (r + 1)%Z
      else if Ascii.eqb a c then 0%Z else (-1)%Z
  end.

Arguments rfind s c%_char.

(** [s.split(c)] for a one-character separator. *)
Fixpoint split (s : string) (c : ascii) : list string :=
  match s with
  | EmptyString => [EmptyString]
  | String a s' =>
      if Ascii.eqb a c then EmptyString :: split s' c
      else match split s' c with
           | h :: t => String a h :: t
           | [] => [String a EmptyString]
           end
  end.

Arguments split s c%_char.

(** [s.lstrip(c)], [s.rstrip(c)] and [s.strip(c)] for a one-character set. *)
Fixpoint lstrip (s : string) (c : ascii) : string :=
  match s with
  | EmptyString => EmptyString
  | String a s' => if Ascii.eqb a c then lstrip s' c else s
  end.

Arguments lstrip s c%_char.

Fixpoint rstrip (s : string) (c : ascii) : string :=
  match s with
  | EmptyString => EmptyString
  | String a s' =>
      match rstrip s' c with
      | EmptyString => if Ascii.eqb a c then EmptyString else String a EmptyString
      | r => String a r
      end
  end.

Arguments rstrip s c%_char.

Definition strip (s : string) (c : ascii) : string := rstrip (lstrip s c) c.

Arguments strip s c%_char.

(** [s.replace(old, new)] for a non-empty [old]: the occurrences of [old]
    are replaced from left to right, without overlap.  [skip] counts the
    characters of a matched occurrence that are still to be dropped. *)
Fixpoint replace_from (skip : nat) (s old new : string) : string :=
  match s with
  | EmptyString => EmptyString
  | String a s' =>
      match skip with
      | S k => replace_from k s' old new
      | O =>
          if startswith s old
          then new +:+ replace_from (String.length old - 1) s' old new
          else String a (replace_from 0 s' old new)
      end
  end.

Definition replace (s old new : string) : string := replace_from 0 s old new.

(** Truthiness of a string: [if s:]. *)
Definition truthy (s : string) : bool :=
  match s with EmptyString => false | _ => true end.

(** [os.path.basename(p)]: what follows the last slash. *)
Definition basename (p : string) : string :=
  drop (Z.to_nat (rfind p "/" + 1)) p.

(** [os.path.join(a, b)] with two arguments. *)
Definition ends_with_slash (s : string) : bool :=
  (0 <=? rfind s "/")%Z && (rfind s "/" =? Z.of_nat (String.length s) - 1)%Z.

Definition join (a b : string) : string :=
  if startswith b "/" then b
  else if negb (truthy a) || ends_with_slash a then a +:+ b
  else a +:+ "/" +:+ b.

(** [Path(p).name]: the last component of the parsed path; empty
    components and ["."] components are dropped by the parser. *)
Definition path_name (p : string) : string :=
  List.last
    (List.filter (fun x => truthy x && negb (String.eqb x ".")) (split p "/"))
    EmptyString.

(** [Path(p).suffix]: the part of the name from its last dot, when that
    dot is neither the first nor the last character of the name (the
    definition of [pathlib] up to Python 3.13; from 3.14 a name ending in
    a dot has the suffix ["."]). *)
Definition path_suffix (p : string) : string :=
  let name := path_name p in
  let i := rfind name "." in
  if ((0 <? i) && (i <? Z.of_nat (String.length name) - 1))%Z
  then drop (Z.to_nat i) name
  else EmptyString.

End Py.

(** ** The summary built by both analyzers

    The Python code keeps the summary in a [dict]; its keys are the fields
    below.  The keys that only the remote analyzer sets are gathered in
    [github_meta]; [origin = None] is the local summary (['is_local']). *)

Record github_meta := GithubMeta {
  name : string;
  description : option string;
  language : option string;
  stars : Z;
  forks : Z;
  open_issues : Z;
  topics : list string;
  owner : string;
  repo_url : string
}.

Record analysis := Analysis {
  files : list string;
  directories : list string;
  languages : gmap string nat;
  file_count : nat;
  has_requirements : bool;
  has_package_json : bool;
  has_dockerfile : bool;
  has_tests : bool;
  config_files : list string;
  origin : option github_meta
}.

Definition empty_analysis (o : option github_meta) : analysis :=
  {| files := []; directories := []; languages := ∅; file_count := 0;
     has_requirements := false; has_package_json := false;
     has_dockerfile := false; has_tests := false; config_files := [];
     origin := o |}.

(** Field updates, one per assignment form of the source. *)
Definition incr_file_count (a : analysis) : analysis :=
  Analysis (files a) (directories a) (languages a) (S (file_count a))
    (has_requirements a) (has_package_json a) (has_dockerfile a) (has_tests a)
    (config_files a) (origin a).

(** [languages[ext] = languages.get(ext, 0) + 1] *)
Definition count_language (ext : string) (a : analysis) : analysis :=
  Analysis (files a) (directories a)
    (<[ext := default 0 (languages a !! ext) + 1]> (languages a)) (file_count a)
    (has_requirements a) (has_package_json a) (has_dockerfile a) (has_tests a)
    (config_files a) (origin a).

Definition mark_requirements (f : string) (a : analysis) : analysis :=
  Analysis (files a) (directories a) (languages a) (file_count a)
    true (has_package_json a) (has_dockerfile a) (has_tests a)
    (config_files a ++ [f]) (origin a).

Definition mark_package_json (f : string) (a : analysis) : analysis :=
  Analysis (files a) (directories a) (languages a) (file_count a)
    (has_requirements a) true (has_dockerfile a) (has_tests a)
    (config_files a ++ [f]) (origin a).

Definition mark_dockerfile (f : string) (a : analysis) : analysis :=
  Analysis (files a) (directories a) (languages a) (file_count a)
    (has_requirements a) (has_package_json a) true (has_tests a)
    (config_files a ++ [f]) (origin a).

Definition mark_tests (a : analysis) : analysis :=
  Analysis (files a) (directories a) (languages a) (file_count a)
    (has_requirements a) (has_package_json a) (has_dockerfile a) true
    (config_files a) (origin a).

Definition append_file (p : string) (a : analysis) : analysis :=
  Analysis (files a ++ [p]) (directories a) (languages a) (file_count a)
    (has_requirements a) (has_package_json a) (has_dockerfile a) (has_tests a)
    (config_files a) (origin a).

Definition extend_directories (ds : list string) (a : analysis) : analysis :=
  Analysis (files a) (directories a ++ ds) (languages a) (file_count a)
    (has_requirements a) (has_package_json a) (has_dockerfile a) (has_tests a)
    (config_files a) (origin a).

(** The three lists of exact names, as written in both analyzers. *)
Definition requirements_names : list string :=
  ["requirements.txt"; "requirements-dev.txt"; "pyproject.toml"; "setup.py"].
Definition package_names : list string :=
  ["package.json"; "package-lock.json"; "yarn.lock"].
Definition docker_names : list string :=
  ["dockerfile"; "docker-compose.yml"; "docker-compose.yaml"].

(** ** The remote analyzer: the loop over the tree listing *)

(** An entry of the hosting API's tree listing: [item['type']] and
    [item['path']]. *)
Record tree_item := TreeItem { item_type : string; item_path : string }.

(** The body of [if item['type'] == 'blob':] (lines 77-99). *)
Definition scan_blob (a : analysis) (path : string) : analysis :=
  let a := incr_file_count a in
  let ext := Py.lower (Py.path_suffix path) in
  let a := if Py.truthy ext then count_language ext a else a in
  let filename := Py.basename path in
  let a :=
    if Py.in_list (Py.lower filename) requirements_names
    then mark_requirements filename a
    else if Py.in_list (Py.lower filename) package_names
    then mark_package_json filename a
    else if Py.in_list (Py.lower filename) docker_names
    then mark_dockerfile filename a
    else if Py.contains (Py.lower filename) "test" || Py.startswith filename "test_"
    then mark_tests a
    else a in
  if length (files a) <? 100 then append_file path a else a.

(** One iteration of [for item in tree_data.get('tree', [])] (lines 76-102). *)
Definition scan_item (a : analysis) (item : tree_item) : analysis :=
  if String.eqb (item_type item) "blob" then scan_blob a (item_path item)
  else if String.eqb (item_type item) "tree" && (length (directories a) <? 50)
  then extend_directories [item_path item] a
  else a.

Definition scan_tree (a : analysis) (tree : list tree_item) : analysis :=
  fold_left scan_item tree a.

(** ** The local analyzer *)

(** A directory as [os.walk] sees it: the names of its files and its
    sub-directories, in the order of the directory listing.  Symbolic
    links to directories, which [os.walk] lists and does not follow, are
    not modelled. *)
#[warnings="-register-all"] Inductive fs_dir := Dir (dir_files : list string) (dir_subdirs : list (string * fs_dir)).

Definition deny_list : list string :=
  [".git"; "node_modules"; "__pycache__"; "venv"; ".venv"; "dist"; "build";
   ".next"; ".idea"].

(** The filter of [dirs[:] = [d for d in dirs if d not in [...]]]. *)
Definition kept (d : string) : bool := negb (Py.in_list d deny_list).

(** [os.walk(path)], top-down, with the caller's in-place pruning of [dirs]
    between the yield of a directory and the descent into it.  A yielded
    triple holds [os.path.relpath(root, path)], the pruned [dirs] and
    [files].  [rel] is the relative path of the directory walked, [None]
    at the top, where [relpath] gives ["."]. *)
Definition rel_root (rel : option string) : string := default "." rel.

Definition sub_rel (rel : option string) (d : string) : string :=
  match rel with None => d | Some r => r +:+ "/" +:+ d end.

Fixpoint walk (rel : option string) (d : fs_dir)
  : list (string * list string * list string) :=
  match d with
  | Dir fs subs =>
      (rel_root rel, List.filter kept (map fst subs), fs)
      :: flat_map
           (fun s => if kept s.1 then walk (Some (sub_rel rel s.1)) s.2 else [])
           subs
  end.

(** The body of [for file in files:] (lines 151-172). *)
Definition scan_file (rel_root : string) (a : analysis) (file : string) : analysis :=
  let a := incr_file_count a in
  let file_path := Py.join rel_root file in
  let ext := Py.lower (Py.path_suffix file) in
  let a := if Py.truthy ext then count_language ext a else a in
  let filename := Py.lower file in
  let a :=
    if Py.in_list filename requirements_names
    then mark_requirements file a
    else if Py.in_list filename package_names
    then mark_package_json file a
    else if Py.in_list filename docker_names
    then mark_dockerfile file a
    else if Py.contains filename "test" || Py.startswith file "test_"
    then mark_tests a
    else a in
  if length (files a) <? 100 then append_file file_path a else a.

(** The body of [for root, dirs, files in os.walk(path):] (lines 143-175). *)
Definition scan_dir (a : analysis) (t : string * list string * list string) : analysis :=
  let '(rel_root, dirs, fs) := t in
  let a := fold_left (scan_file rel_root) fs a in
  if length (directories a) <? 50
  then extend_directories (map (Py.join rel_root) dirs) a
  else a.

Definition analyze_local_directory (path : fs_dir) : analysis :=
  fold_left scan_dir (walk None path) (empty_analysis None).

(** ** The hosting API

    [requests.get] either raises (transport failure; the [string] is
    [str(e)]) or returns a response with a status code and a body.  The
    bodies follow the hosting API's schema; [response.json()] raises on
    [JsonInvalid]. *)

Record repo_data := RepoData {
  repo_name : string;
  repo_description : option string;
  repo_language : option string;
  stargazers_count : Z;
  forks_count : Z;
  open_issues_count : Z;
  repo_topics : list string;
  default_branch : string
}.

Inductive json_body :=
| JsonInvalid (exc : string)
| JsonMessage (message : option string)
| JsonRepo (r : repo_data)
| JsonTree (tree : list tree_item)
| JsonFile (content : option string)
| JsonArray.

Record response := Response { status_code : Z; json : json_body }.

Inductive http_result :=
| Responds (r : response)
| Raises (exc : string).

Definition headers_t : Type := list (string * string).

(** A program that performs HTTP GET requests and then returns. *)
Inductive io (A : Type) : Type :=
| Ret (a : A)
| Get (url : string) (headers : headers_t) (k : http_result -> io A).
Arguments Ret {A} a.
Arguments Get {A} url headers k.

(** The network: the answer to each request. *)
Definition network : Type := string -> headers_t -> http_result.

(** Running a program: its result and the URLs requested, in order. *)
Fixpoint run {A : Type} (net : network) (p : io A) : A * list string :=
  match p with
  | Ret a => (a, [])
  | Get url headers k =>
      let '(a, log) := run net (k (net url headers)) in (a, url :: log)
  end.

(** Exceptions raised by the body of a [try], as [inl (str e)]. *)
Definition exn (A : Type) : Type := string + A.

(** [body.get('message', 'Unknown error')] *)
Definition get_message (b : json_body) : exn string :=
  match b with
  | JsonInvalid e => inl e
  | JsonMessage (Some m) => inr m
  | JsonMessage None | JsonRepo _ | JsonTree _ | JsonFile _ => inr "Unknown error"
  | JsonArray => inl "'list' object has no attribute 'get'"
  end.

(** [repo_data = response.json()] followed by the keyed reads
    [repo_data['default_branch']] and [repo_data['name']]. *)
Definition get_repo_data (b : json_body) : exn repo_data :=
  match b with
  | JsonInvalid e => inl e
  | JsonRepo r => inr r
  | JsonMessage _ | JsonTree _ | JsonFile _ => inl "'default_branch'"
  | JsonArray => inl "list indices must be integers or slices, not str"
  end.

(** [tree_data = response.json()] followed by [tree_data.get('tree', [])]. *)
Definition get_tree (b : json_body) : exn (list tree_item) :=
  match b with
  | JsonInvalid e => inl e
  | JsonTree t => inr t
  | JsonMessage _ | JsonRepo _ | JsonFile _ => inr []
  | JsonArray => inl "'list' object has no attribute 'get'"
  end.


(** [headers = {}; if github_token: headers['Authorization'] = ...] *)
Definition auth_headers (github_token : option string) : headers_t :=
  match github_token with
  | Some t => if Py.truthy t then [("Authorization", "token " +:+ t)] else []
  | None => []
  end.

(** ** [fetch_github_repo_structure] *)

(** Line 25: the reference without scheme, host and outer slashes. *)
Definition url_parts (github_url : string) : string :=
  Py.strip
    (Py.replace (Py.replace github_url "https://github.com/" "")
       "http://github.com/" "")
    "/".

Definition api_base (owner repo : string) : string :=
  "https://api.github.com/repos/" +:+ owner +:+ "/" +:+ repo.

Definition tree_url (owner repo branch : string) : string :=
  api_base owner repo +:+ "/git/trees/" +:+ branch +:+ "?recursive=1".

(** Lines 54-73: the summary before the loop. *)
Definition initial_analysis (github_url owner : string) (r : repo_data) : analysis :=
  empty_analysis
    (Some {| name := repo_name r; description := repo_description r;
             language := repo_language r; stars := stargazers_count r;
             forks := forks_count r; open_issues := open_issues_count r;
             topics := repo_topics r; owner := owner; repo_url := github_url |}).

(** The result is the pair [(analysis, error)] of the source; the
    [except Exception as e] handler turns every exception into
    [(None, "Error: " + str(e))].  [owner, repo = parts.split('/')[:2]]
    reads the first two fields, which exist when [parts] has a slash. *)
Definition failed (msg : string) : io (option analysis * option string) :=
  Ret (None, Some msg).

Definition fetch_github_repo_structure (github_url : string)
    (github_token : option string) : io (option analysis * option string) :=
  let parts := url_parts github_url in
  if negb (Py.contains parts "/") then failed "Invalid GitHub URL format"
  else
    let fields := Py.split parts "/" in
    let owner := nth 0 fields "" in
    let repo := nth 1 fields "" in
    let headers := auth_headers github_token in
    Get (api_base owner repo) headers (fun repo_response =>
      match repo_response with
      | Raises e => failed ("Error: " +:+ e)
      | Responds repo_response =>
          if negb (status_code repo_response =? 200)%Z then
            match get_message (json repo_response) with
            | inl e => failed ("Error: " +:+ e)
            | inr m =>
                failed ("Error: " +:+ pretty (status_code repo_response)
                          +:+ " - " +:+ m)
            end
          else
            match get_repo_data (json repo_response) with
            | inl e => failed ("Error: " +:+ e)
            | inr repo_data =>
                Get (tree_url owner repo (default_branch repo_data)) headers
                  (fun tree_response =>
                     match tree_response with
                     | Raises e => failed ("Error: " +:+ e)
                     | Responds tree_response =>
                         if negb (status_code tree_response =? 200)%Z then
                           failed ("Error fetching tree: "
                                     +:+ pretty (status_code tree_response))
                         else
                           match get_tree (json tree_response) with
                           | inl e => failed ("Error: " +:+ e)
                           | inr tree =>
                               Ret (Some (scan_tree
                                            (initial_analysis github_url owner repo_data)
                                            tree),
                                    None)
                           end
                     end)
            end
      end).

(** ** [fetch_github_file_content] *)

Section FileContent.

(** [base64.b64decode] and [bytes.decode('utf-8')] of the Python library;
    [None] when they raise. *)
Variable b64decode : string -> option (list Byte.byte).
Variable utf8_decode : list Byte.byte -> option string.



End FileContent.

(** ** The steps shared by the two loops

    Both loop bodies perform the same four steps on a file: count it,
    count its extension, classify its name, sample its path.  The steps
    are named here; [scan_blob_steps] and [scan_file_steps] below show
    that the loop bodies are their composition. *)

Definition count_ext (ext : string) (a : analysis) : analysis :=
  if Py.truthy ext then count_language ext a else a.

Definition classify (filename : string) (a : analysis) : analysis :=
  if Py.in_list (Py.lower filename) requirements_names
  then mark_requirements filename a
  else if Py.in_list (Py.lower filename) package_names
  then mark_package_json filename a
  else if Py.in_list (Py.lower filename) docker_names
  then mark_dockerfile filename a
  else if Py.contains (Py.lower filename) "test" || Py.startswith filename "test_"
  then mark_tests a
  else a.

Definition sample_file (p : string) (a : analysis) : analysis :=
  if length (files a) <? 100 then append_file p a else a.

(** The sampled list after one more offer, under a cap of [n]. *)
Definition cap_append (n : nat) (l : list string) (x : string) : list string :=
  if length l <? n then l ++ [x] else l.

(** A name of one of the three exact-match lists. *)
Definition exact_match (filename : string) : bool :=
  Py.in_list (Py.lower filename) requirements_names
  || Py.in_list (Py.lower filename) package_names
  || Py.in_list (Py.lower filename) docker_names.

(** The summary with another list of directories. *)
Definition with_directories (ds : list string) (a : analysis) : analysis :=
  Analysis (files a) ds (languages a) (file_count a)
    (has_requirements a) (has_package_json a) (has_dockerfile a) (has_tests a)
    (config_files a) (origin a).

(** ** What the traversals observe *)

(** The paths of the blob entries of a tree listing, in order. *)
Definition is_blob (item : tree_item) : bool := String.eqb (item_type item) "blob".
Definition is_tree (item : tree_item) : bool := String.eqb (item_type item) "tree".

Definition blob_paths (tree : list tree_item) : list string :=
  map item_path (List.filter is_blob tree).

Definition tree_paths (tree : list tree_item) : list string :=
  map item_path (List.filter is_tree tree).

(** The files of the yielded triples, as [file_path], in order. *)
Definition triple_files (t : string * list string * list string) : list string :=
  map (Py.join t.1.1) t.2.

Definition walked_files (d : fs_dir) : list string :=
  flat_map triple_files (walk None d).

(** A directory without its deny-listed sub-directories, at every depth. *)
Fixpoint prune (d : fs_dir) : fs_dir :=
  match d with
  | Dir fs subs =>
      Dir fs (flat_map (fun s => if kept s.1 then [(s.1, prune s.2)] else []) subs)
  end.

(** The number of files in a directory and below it. *)
Fixpoint count_files (d : fs_dir) : nat :=
  match d with
  | Dir fs subs => length fs + list_sum (map (fun s => count_files s.2) subs)
  end.

(** No sub-directory, at any depth, has a deny-listed name. *)
Fixpoint clean (d : fs_dir) : bool :=
  match d with
  | Dir _ subs => forallb (fun s => kept s.1 && clean s.2) subs
  end.

(** The owner and the repository name read from a reference (line 29). *)
Definition url_owner (github_url : string) : string :=
  nth 0 (Py.split (url_parts github_url) "/") "".
Definition url_repo (github_url : string) : string :=
  nth 1 (Py.split (url_parts github_url) "/") "".

(** A key of the extension histogram: lower case, with the leading dot. *)
Definition ext_key (k : string) : Prop :=
  Py.is_lowercase k = true /\ Py.startswith k "." = true.

(** A sampled directory is the join of a walked directory and a kept name. *)
Definition kept_entry (e : string) : Prop :=
  exists r n, e = Py.join r n /\ Py.in_list n deny_list = false.

(** The part of a summary that does not depend on the order of the
    files: histogram, count and flags. *)
Definition tallies (a : analysis) : gmap string nat * nat * bool * bool * bool * bool :=
  (languages a, file_count a, has_requirements a, has_package_json a,
   has_dockerfile a, has_tests a).

(** ** Scenarios *)

(** The tree of [https://github.com/acme/widget]. *)
Definition widget_repo : repo_data :=
  RepoData "widget" None (Some "Python") 0 0 0 [] "main".

Definition widget_tree : list tree_item :=
  [TreeItem "blob" "requirements.txt"; TreeItem "tree" "src";
   TreeItem "blob" "src/main.py"; TreeItem "blob" "test_main.py";
   TreeItem "blob" "Dockerfile"].

Definition widget_net : network := fun url _ =>
  if String.eqb url "https://api.github.com/repos/acme/widget"
  then Responds (Response 200 (JsonRepo widget_repo))
  else if String.eqb url
            "https://api.github.com/repos/acme/widget/git/trees/main?recursive=1"
  then Responds (Response 200 (JsonTree widget_tree))
  else Responds (Response 404 (JsonMessage (Some "Not Found"))).

(** The same repository when the tree call is refused with a provider
    message. *)
Definition limited_net : network := fun url _ =>
  if String.eqb url "https://api.github.com/repos/acme/widget"
  then Responds (Response 200 (JsonRepo widget_repo))
  else Responds (Response 403 (JsonMessage (Some "API rate limit exceeded"))).




(** A text of three lines, the last one without a newline, and a disk
    that holds it under every path. *)
Definition three_lines : string :=
  "one" +:+ String "010"%char "two" +:+ String "010"%char "three".

Definition three_lines_disk : string -> option string := fun _ => Some three_lines.

(** A network that refuses every call with the provider's rate-limit
    message. *)
Definition refusing_net : network := fun _ _ =>
  Responds (Response 403 (JsonMessage (Some "API rate limit exceeded for 10.0.0.1"))).

(** A local directory with 51 empty sub-directories and no file. *)
Definition wide_dir : fs_dir :=
  Dir [] (map (fun i : nat => ("d" +:+ pretty i, Dir [] [])) (seq 0 51)).

(** ** [read_local_file] *)

(** [f.readlines()] on the text of a file opened in text mode (newlines
    already translated): the lines, each with its newline. *)
Fixpoint readlines (text : string) : list string :=
  match text with
  | EmptyString => []
  | String a rest =>
      if Ascii.eqb a "010" then String a EmptyString :: readlines rest
      else match readlines rest with
           | [] => [String a EmptyString]
           | line :: lines => String a line :: lines
           end
  end.

(** [l[:k]] for any integer [k]: a negative [k] counts from the end. *)
Definition slice_to {A : Type} (k : Z) (l : list A) : list A :=
  if (0 <=? k)%Z then take (Z.to_nat k) l
  else take (length l - Z.to_nat (- k)) l.

(** [sep.join(l)] *)
Fixpoint join_with (sep : string) (l : list string) : string :=
  match l with
  | [] => EmptyString
  | [x] => x
  | x :: rest => x +:+ sep +:+ join_with sep rest
  end.

(** [disk] gives the text of a path, or [None] when opening or reading
    it raises; the bare [except] turns that into [None]. *)
Definition read_local_file (disk : string -> option string)
    (file_path : string) (max_lines : Z) : option string :=
  match disk file_path with
  | None => None
  | Some text => Some (join_with "" (slice_to max_lines (readlines text)))
  end.


(** ** The page after [Fetch Repository] (lines 432-452)

    [if error:] shows the error, with the token tip when the lower-cased
    error mentions a rate limit; otherwise the summary is stored and its
    metrics are shown.  Reading a key of an absent summary, or a remote
    key of a summary without one, raises. *)
Inductive fetch_page :=
| ErrorShown (error : string) (token_tip : bool)
| RepositoryShown (stored : analysis) (files_metric languages_metric : nat)
    (stars_metric forks_metric issues_metric : Z) (topics_info : option string)
| PageRaises.

Definition show_fetch_result (result : option analysis * option string) : fetch_page :=
  let '(analysis, error) := result in
  match error with
  | Some (String c e) =>
      ErrorShown (String c e) (Py.contains (Py.lower (String c e)) "rate limit")
  | _ =>
      match analysis with
      | Some a =>
          match origin a with
          | Some m =>
              RepositoryShown a (file_count a) (size (languages a))
                (stars m) (forks m) (open_issues m)
                (match topics m with
                 | [] => None
                 | ts => Some (join_with ", " ts)
                 end)
          | None => PageRaises
          end
      | None => PageRaises
      end
  end.

(** ** The files of a scan, as the loop steps see them *)

(** One file: the sampled path, the classified name and the counted
    extension. *)
Definition file_step (a : analysis) (x : string * string * string) : analysis :=
  sample_file x.1.1 (classify x.1.2 (count_ext x.2 (incr_file_count a))).

Definition blob_entry (path : string) : string * string * string :=
  (path, Py.basename path, Py.lower (Py.path_suffix path)).

Definition file_entry (r file : string) : string * string * string :=
  (Py.join r file, file, Py.lower (Py.path_suffix file)).

Definition remote_entries (tree : list tree_item) : list (string * string * string) :=
  map blob_entry (blob_paths tree).

Definition local_entries (d : fs_dir) : list (string * string * string) :=
  flat_map (fun t => map (file_entry t.1.1) t.2) (walk None d).

(** The classified names and the counted (non-empty) extensions. *)
Definition entry_names (xs : list (string * string * string)) : list string :=
  map (fun x => x.1.2) xs.

Definition entry_extensions (xs : list (string * string * string)) : list string :=
  List.filter Py.truthy (map (fun x => x.2) xs).

(** A name that the test rule reaches and accepts. *)
Definition test_name (f : string) : bool :=
  negb (exact_match f)
  && (Py.contains (Py.lower f) "test" || Py.startswith f "test_").

(** The number of occurrences of a string in a list. *)
Definition occurrences (k : string) (l : list string) : nat :=
  length (List.filter (String.eqb k) l).

(** The sum of the counts of a histogram. *)
Definition histogram_total (m : gmap string nat) : nat :=
  map_fold (fun _ n acc => n + acc) 0 m.

(** No character of a string satisfies [bad]. *)
Fixpoint avoids (bad : ascii -> bool) (s : string) : bool :=
  match s with
  | EmptyString => true
  | String a rest => negb (bad a) && avoids bad rest
  end.

(** ** Proof steps *)

(** Case analysis on the tests of the loop steps. *)
Ltac steps :=
  unfold sample_file, classify, count_ext, extend_directories, with_directories;
  repeat case_match; simpl; try done.

(** * Properties *)

(** ** The string helpers on examples *)

Example lower_ex : Py.lower "Dockerfile.TXT" = "dockerfile.txt".
Proof. reflexivity. Qed.
Example split_ex : Py.split "a//b/" "/" = ["a"; ""; "b"; ""].
Proof. reflexivity. Qed.
Example strip_ex : Py.strip "//a/b//" "/" = "a/b".
Proof. reflexivity. Qed.
Example replace_ex :
  Py.replace "https://github.com/acme/widget" "https://github.com/" "" = "acme/widget".
Proof. reflexivity. Qed.
Example replace_ex2 : Py.replace "aaa" "aa" "b" = "ba".
Proof. reflexivity. Qed.
Example suffix_ex : Py.path_suffix "src/main.PY" = ".PY".
Proof. reflexivity. Qed.
Example suffix_ex2 : Py.path_suffix "a.b/.bashrc" = "".
Proof. reflexivity. Qed.
Example suffix_ex3 : Py.path_suffix "a/b.tar.gz/" = ".gz".
Proof. reflexivity. Qed.
Example suffix_ex4 : Py.path_suffix "foo." = "".
Proof. reflexivity. Qed.
Example basename_ex : Py.basename "src/main.py" = "main.py".
Proof. reflexivity. Qed.
Example basename_ex2 : Py.basename "main.py" = "main.py".
Proof. reflexivity. Qed.
Example join_ex : Py.join "." "index.js" = "./index.js".
Proof. reflexivity. Qed.
Example contains_ex : Py.contains "requirements-test.txt" "test" = true.
Proof. reflexivity. Qed.

(** ** Facts about the string helpers *)

Lemma lower_char_not_upper c : Py.is_upper (Py.lower_char c) = false.
Proof. by destruct c as [[] [] [] [] [] [] [] []]. Qed.

Lemma lower_is_lowercase s : Py.is_lowercase (Py.lower s) = true.
Proof.
  induction s as [|c s IH]; simpl; [done|].
  by rewrite lower_char_not_upper, IH.
Qed.

Lemma lower_idempotent s : Py.is_lowercase s = true -> Py.lower s = s.
Proof.
  induction s as [|c s IH]; simpl; [done|].
  intros [Hc Hs]%andb_true_iff. rewrite IH by done. f_equal.
  unfold Py.lower_char, Py.is_upper in *. by destruct (_ && _)%N.
Qed.

Lemma lower_dot s : Py.startswith s "." = true -> Py.startswith (Py.lower s) "." = true.
Proof.
  destruct s as [|c s]; cbn [Py.startswith Py.lower]; [done|].
  destruct (Ascii.eqb_spec "." c) as [<-|]; [done|intros; discriminate].
Qed.

Lemma lower_truthy s : Py.truthy (Py.lower s) = Py.truthy s.
Proof. by destruct s. Qed.

Lemma rfind_lower_bound s c : (-1 <= Py.rfind s c)%Z.
Proof. induction s as [|a s IH]; simpl; [lia|]. repeat case_match; lia. Qed.

(** The character at a found index is the one looked for. *)
Lemma rfind_drop s c :
  (0 <= Py.rfind s c)%Z ->
  exists rest, Py.drop (Z.to_nat (Py.rfind s c)) s = String c rest.
Proof.
  induction s as [|a s IH]; simpl; [lia|].
  destruct (Z.leb_spec 0 (Py.rfind s c)) as [Hr|Hr].
  - intros _. destruct (IH Hr) as [rest Hrest]. exists rest.
    replace (Z.to_nat (Py.rfind s c + 1)) with (S (Z.to_nat (Py.rfind s c))) by lia.
    done.
  - destruct (Ascii.eqb_spec a c) as [->|]; [|lia].
    intros _. by exists s.
Qed.

(** A suffix is empty or begins with the dot. *)
Lemma path_suffix_dot p :
  Py.path_suffix p = "" \/ Py.startswith (Py.path_suffix p) "." = true.
Proof.
  unfold Py.path_suffix.
  destruct (_ && _)%Z eqn:Hi; [right|by left].
  apply andb_true_iff in Hi as [Hi _]. apply Z.ltb_lt in Hi.
  destruct (rfind_drop (Py.path_name p) "." ltac:(lia)) as [rest ->].
  done.
Qed.

(** A non-empty suffix has at least one character after the dot. *)
Lemma drop_length n s : String.length (Py.drop n s) = String.length s - n.
Proof. revert s; induction n as [|n IH]; intros [|a s]; simpl; auto with lia. Qed.

Lemma path_suffix_length p :
  Py.path_suffix p = "" \/ 2 <= String.length (Py.path_suffix p).
Proof.
  unfold Py.path_suffix.
  destruct (_ && _)%Z eqn:Hi; [right|by left].
  apply andb_true_iff in Hi as [Hi Hj]. apply Z.ltb_lt in Hi, Hj.
  rewrite drop_length. lia.
Qed.

Lemma in_list_In x l : Py.in_list x l = true <-> In x l.
Proof.
  unfold Py.in_list. rewrite existsb_exists. split.
  - intros (y & Hy & ->%String.eqb_eq). done.
  - intros H. exists x. by rewrite String.eqb_refl.
Qed.


(** ** The loop bodies, step by step *)

Lemma scan_blob_steps a path :
  scan_blob a path =
  sample_file path
    (classify (Py.basename path)
       (count_ext (Py.lower (Py.path_suffix path)) (incr_file_count a))).
Proof. reflexivity. Qed.

Lemma scan_file_steps r a file :
  scan_file r a file =
  sample_file (Py.join r file)
    (classify file (count_ext (Py.lower (Py.path_suffix file)) (incr_file_count a))).
Proof. reflexivity. Qed.

Lemma sample_file_files p a :
  files (sample_file p a) = if length (files a) <? 100 then files a ++ [p] else files a.
Proof. steps. Qed.

Lemma classify_files f a : files (classify f a) = files a.
Proof. steps. Qed.

Lemma count_ext_files e a : files (count_ext e a) = files a.
Proof. steps. Qed.

Lemma step_file_count p f e a :
  file_count (sample_file p (classify f (count_ext e (incr_file_count a))))
  = S (file_count a).
Proof. steps. Qed.

Lemma step_directories p f e a :
  directories (sample_file p (classify f (count_ext e (incr_file_count a))))
  = directories a.
Proof. steps. Qed.

Lemma step_files p f e a :
  files (sample_file p (classify f (count_ext e (incr_file_count a))))
  = if length (files a) <? 100 then files a ++ [p] else files a.
Proof. by rewrite sample_file_files, classify_files, count_ext_files. Qed.

Lemma step_languages p f e a :
  languages (sample_file p (classify f (count_ext e (incr_file_count a))))
  = if Py.truthy e
    then <[e := default 0 (languages a !! e) + 1]> (languages a)
    else languages a.
Proof. steps. Qed.

Lemma step_has_tests p f e a :
  has_tests (sample_file p (classify f (count_ext e (incr_file_count a))))
  = if exact_match f then has_tests a
    else if Py.contains (Py.lower f) "test" || Py.startswith f "test_" then true
    else has_tests a.
Proof. unfold exact_match. steps. Qed.

Lemma count_ext_with_directories ds e a :
  count_ext e (with_directories ds a) = with_directories ds (count_ext e a).
Proof. unfold count_ext. by case_match. Qed.

Lemma classify_with_directories ds f a :
  classify f (with_directories ds a) = with_directories ds (classify f a).
Proof. unfold classify. by repeat case_match. Qed.

Lemma sample_file_with_directories ds p a :
  sample_file p (with_directories ds a) = with_directories ds (sample_file p a).
Proof. unfold sample_file. simpl. by case_match. Qed.

Lemma step_with_directories ds p f e a :
  sample_file p (classify f (count_ext e (incr_file_count (with_directories ds a))))
  = with_directories ds (sample_file p (classify f (count_ext e (incr_file_count a)))).
Proof.
  change (incr_file_count (with_directories ds a))
    with (with_directories ds (incr_file_count a)).
  by rewrite count_ext_with_directories, classify_with_directories,
    sample_file_with_directories.
Qed.

Lemma with_directories_twice ds ds' a :
  with_directories ds (with_directories ds' a) = with_directories ds a.
Proof. done. Qed.

Lemma with_directories_same a : with_directories (directories a) a = a.
Proof. by destruct a. Qed.

(** A list that grows one element at a time while shorter than [n] is
    the first [n] elements of everything offered. *)
Lemma capped_append (n : nat) (xs l : list string) :
  length l <= n ->
  fold_left (cap_append n) xs l = take n (l ++ xs).
Proof.
  revert l. induction xs as [|x xs IH]; intros l Hl; simpl.
  - by rewrite app_nil_r, firstn_all2.
  - unfold cap_append at 2.
    destruct (Nat.ltb_spec (length l) n) as [Hlt|Hge].
    + rewrite IH by (rewrite length_app; simpl; lia).
      by rewrite <- app_assoc.
    + rewrite IH by done.
      rewrite !take_app_le by lia. done.
Qed.

(** ** The remote loop *)

Lemma scan_blob_files a p : files (scan_blob a p) = cap_append 100 (files a) p.
Proof. rewrite scan_blob_steps. apply step_files. Qed.

Lemma scan_blob_file_count a p : file_count (scan_blob a p) = S (file_count a).
Proof. rewrite scan_blob_steps. apply step_file_count. Qed.

Lemma scan_blob_directories a p : directories (scan_blob a p) = directories a.
Proof. rewrite scan_blob_steps. apply step_directories. Qed.

Lemma scan_blob_with_directories ds a p :
  scan_blob (with_directories ds a) p = with_directories ds (scan_blob a p).
Proof. rewrite !scan_blob_steps. apply step_with_directories. Qed.

Lemma scan_blobs_with_directories ds ps a :
  fold_left scan_blob ps (with_directories ds a)
  = with_directories ds (fold_left scan_blob ps a).
Proof.
  revert a. induction ps as [|p ps IH]; intros a; simpl; [done|].
  by rewrite scan_blob_with_directories, IH.
Qed.

Lemma is_tree_not_blob item : is_tree item = true -> is_blob item = false.
Proof.
  unfold is_tree, is_blob. intros ->%String.eqb_eq. done.
Qed.

(** Apart from [directories], the loop is a fold of [scan_blob] over the
    blob entries. *)
Lemma scan_tree_blobs tree a :
  scan_tree a tree
  = with_directories (directories (scan_tree a tree))
      (fold_left scan_blob (blob_paths tree) a).
Proof.
  unfold scan_tree, blob_paths. revert a.
  induction tree as [|item tree IH]; intros a; simpl.
  - by rewrite with_directories_same.
  - unfold scan_item at 2 4. fold (is_blob item). fold (is_tree item).
    destruct (is_blob item) eqn:Hb; simpl; [apply IH|].
    destruct (is_tree item && _) eqn:Ht; [|apply IH].
    change (extend_directories [item_path item] a)
      with (with_directories (directories a ++ [item_path item]) a).
    rewrite IH at 1.
    by rewrite scan_blobs_with_directories, with_directories_twice.
Qed.

Lemma scan_blobs_files ps a :
  files (fold_left scan_blob ps a) = fold_left (cap_append 100) ps (files a).
Proof.
  revert a. induction ps as [|p ps IH]; intros a; simpl; [done|].
  by rewrite IH, scan_blob_files.
Qed.

Lemma scan_blobs_file_count ps a :
  file_count (fold_left scan_blob ps a) = file_count a + length ps.
Proof.
  revert a. induction ps as [|p ps IH]; intros a; simpl; [lia|].
  rewrite IH, scan_blob_file_count. lia.
Qed.

Lemma scan_tree_files tree a :
  length (files a) <= 100 ->
  files (scan_tree a tree) = take 100 (files a ++ blob_paths tree).
Proof.
  intros Ha. rewrite scan_tree_blobs. simpl.
  rewrite scan_blobs_files. by apply capped_append.
Qed.

Lemma scan_tree_file_count tree a :
  file_count (scan_tree a tree) = file_count a + length (blob_paths tree).
Proof. rewrite scan_tree_blobs. simpl. apply scan_blobs_file_count. Qed.

Lemma scan_tree_directories tree a :
  length (directories a) <= 50 ->
  directories (scan_tree a tree) = take 50 (directories a ++ tree_paths tree).
Proof.
  unfold scan_tree, tree_paths. revert a.
  induction tree as [|item tree IH]; intros a Ha; simpl.
  - by rewrite app_nil_r, firstn_all2.
  - unfold scan_item at 2. fold (is_blob item). fold (is_tree item).
    destruct (is_blob item) eqn:Hb.
    + destruct (is_tree item) eqn:Ht.
      { apply is_tree_not_blob in Ht. congruence. }
      rewrite IH by (by rewrite scan_blob_directories).
      by rewrite scan_blob_directories.
    + destruct (is_tree item) eqn:Ht; simpl; [|by apply IH].
      destruct (Nat.ltb_spec (length (directories a)) 50) as [Hlt|Hge].
      * rewrite IH by (simpl; rewrite length_app; simpl; lia).
        simpl. by rewrite <- app_assoc.
      * rewrite IH by done. rewrite !take_app_le by lia. done.
Qed.

(** ** The local loop *)

Lemma scan_file_files r a f :
  files (scan_file r a f) = cap_append 100 (files a) (Py.join r f).
Proof. rewrite scan_file_steps. apply step_files. Qed.

Lemma scan_file_file_count r a f : file_count (scan_file r a f) = S (file_count a).
Proof. rewrite scan_file_steps. apply step_file_count. Qed.

Lemma scan_file_directories r a f : directories (scan_file r a f) = directories a.
Proof. rewrite scan_file_steps. apply step_directories. Qed.

Lemma scan_files_files r fs a :
  files (fold_left (scan_file r) fs a)
  = fold_left (cap_append 100) (map (Py.join r) fs) (files a).
Proof.
  revert a. induction fs as [|f fs IH]; intros a; simpl; [done|].
  by rewrite IH, scan_file_files.
Qed.

Lemma scan_files_file_count r fs a :
  file_count (fold_left (scan_file r) fs a) = file_count a + length fs.
Proof.
  revert a. induction fs as [|f fs IH]; intros a; simpl; [lia|].
  rewrite IH, scan_file_file_count. lia.
Qed.

Lemma scan_files_directories r fs a :
  directories (fold_left (scan_file r) fs a) = directories a.
Proof.
  revert a. induction fs as [|f fs IH]; intros a; simpl; [done|].
  by rewrite IH, scan_file_directories.
Qed.

Lemma scan_dir_files a t :
  files (scan_dir a t) = fold_left (cap_append 100) (triple_files t) (files a).
Proof.
  destruct t as [[r dirs] fs]. unfold scan_dir, triple_files. simpl.
  case_match; simpl; apply scan_files_files.
Qed.

Lemma scan_dir_file_count a t :
  file_count (scan_dir a t) = file_count a + length (triple_files t).
Proof.
  destruct t as [[r dirs] fs]. unfold scan_dir, triple_files. simpl.
  rewrite length_map. case_match; simpl; apply scan_files_file_count.
Qed.

Lemma scan_dirs_files ts a :
  files (fold_left scan_dir ts a)
  = fold_left (cap_append 100) (flat_map triple_files ts) (files a).
Proof.
  revert a. induction ts as [|t ts IH]; intros a; simpl; [done|].
  by rewrite IH, scan_dir_files, fold_left_app.
Qed.

Lemma scan_dirs_file_count ts a :
  file_count (fold_left scan_dir ts a)
  = file_count a + length (flat_map triple_files ts).
Proof.
  revert a. induction ts as [|t ts IH]; intros a; simpl; [lia|].
  rewrite IH, scan_dir_file_count, length_app. lia.
Qed.

(** ** The walk and the deny-list *)

(** Induction on a directory, with the property for every sub-directory. *)
Lemma fs_dir_induction (P : fs_dir -> Prop) :
  (forall fs subs, Forall (fun s => P s.2) subs -> P (Dir fs subs)) ->
  forall d, P d.
Proof.
  intros step. fix IH 1. intros [fs subs]. apply step.
  induction subs as [|[n sub] subs IHsubs]; constructor; [apply IH|apply IHsubs].
Qed.

Lemma kept_pruned_names (subs : list (string * fs_dir)) :
  List.filter kept
    (map fst (flat_map (fun s => if kept s.1 then [(s.1, prune s.2)] else []) subs))
  = List.filter kept (map fst subs).
Proof.
  induction subs as [|[n sub] subs IH]; simpl; [done|].
  destruct (kept n) eqn:Hn; simpl; rewrite ?Hn, IH; done.
Qed.

(** The walk does not see what [prune] removes. *)
Lemma walk_prune d : forall rel, walk rel (prune d) = walk rel d.
Proof.
  induction d as [fs subs IH] using fs_dir_induction. intros rel. simpl.
  rewrite kept_pruned_names. f_equal.
  induction IH as [|[n sub] subs Hsub _ IHsubs]; simpl; [done|].
  destruct (kept n) eqn:Hn; simpl; rewrite ?Hn, ?IHsubs; [|done].
  by rewrite Hsub.
Qed.

Lemma prune_clean d : clean (prune d) = true.
Proof.
  induction d as [fs subs IH] using fs_dir_induction. simpl.
  induction IH as [|[n sub] subs Hsub _ IHsubs]; simpl in *; [done|].
  destruct (kept n) eqn:Hn; simpl; rewrite ?Hn, ?IHsubs; [|done].
  by rewrite Hsub.
Qed.

(** On a directory without deny-listed names, the walk yields every file. *)
Lemma walk_clean_count d :
  clean d = true ->
  forall rel, length (flat_map triple_files (walk rel d)) = count_files d.
Proof.
  induction d as [fs subs IH] using fs_dir_induction. simpl.
  intros Hclean rel. rewrite length_app. unfold triple_files at 1. simpl.
  rewrite length_map. f_equal.
  induction IH as [|[n sub] subs Hsub _ IHsubs]; simpl in *; [done|].
  apply andb_true_iff in Hclean as [[Hn Hc]%andb_true_iff Hrest].
  rewrite Hn, flat_map_app, length_app, Hsub, IHsubs by done. done.
Qed.

Lemma walked_files_count d : length (walked_files d) = count_files (prune d).
Proof.
  unfold walked_files. rewrite <- (walk_prune d).
  apply walk_clean_count, prune_clean.
Qed.

(** The [dirs] of every yielded triple are kept names. *)
Lemma walk_dirs_kept d :
  forall rel, Forall (fun t => Forall (fun n => kept n = true) t.1.2) (walk rel d).
Proof.
  induction d as [fs subs IH] using fs_dir_induction. intros rel. simpl.
  constructor; simpl.
  - apply List.Forall_forall. intros n Hn. by apply filter_In in Hn as [_ ?].
  - induction IH as [|[n sub] subs Hsub _ IHsubs]; simpl; [constructor|].
    apply Forall_app. split; [|done].
    destruct (kept n); [apply Hsub|constructor].
Qed.

Lemma scan_dir_directories a t :
  Forall kept_entry (directories a) ->
  Forall (fun n => kept n = true) t.1.2 ->
  Forall kept_entry (directories (scan_dir a t)).
Proof.
  destruct t as [[r dirs] fs]. simpl. intros Ha Hdirs.
  unfold scan_dir. case_match; simpl; rewrite scan_files_directories; [|done].
  apply Forall_app. split; [done|].
  apply Forall_map. eapply Forall_impl; [exact Hdirs|].
  intros n Hn. exists r, n. split; [done|].
  unfold kept in Hn. by apply negb_true_iff in Hn.
Qed.

Lemma scan_dirs_directories ts a :
  Forall kept_entry (directories a) ->
  Forall (fun t => Forall (fun n => kept n = true) t.1.2) ts ->
  Forall kept_entry (directories (fold_left scan_dir ts a)).
Proof.
  revert a. induction ts as [|t ts IH]; intros a Ha Hts; simpl; [done|].
  apply Forall_cons in Hts as [Ht Hts].
  apply IH; [by apply scan_dir_directories|done].
Qed.

(** ** The extension histogram *)

Lemma suffix_key path :
  Py.truthy (Py.lower (Py.path_suffix path)) = true ->
  ext_key (Py.lower (Py.path_suffix path)).
Proof.
  intros Hext. split; [apply lower_is_lowercase|].
  destruct (path_suffix_dot path) as [Hempty|Hdot]; [|by apply lower_dot].
  by rewrite Hempty in Hext.
Qed.

Lemma step_languages_changed p f path a k :
  languages
    (sample_file p (classify f (count_ext (Py.lower (Py.path_suffix path))
                                  (incr_file_count a)))) !! k
  <> languages a !! k ->
  k = Py.lower (Py.path_suffix path) /\ ext_key k.
Proof.
  rewrite step_languages. destruct (Py.truthy _) eqn:Hext; [|done].
  destruct (decide (Py.lower (Py.path_suffix path) = k)) as [<-|Hne].
  - intros _. split; [done|by apply suffix_key].
  - by rewrite lookup_insert_ne.
Qed.

Lemma step_languages_keys p f path a :
  map_Forall (fun k _ => ext_key k) (languages a) ->
  map_Forall (fun k _ => ext_key k)
    (languages
       (sample_file p (classify f (count_ext (Py.lower (Py.path_suffix path))
                                     (incr_file_count a))))).
Proof.
  intros Ha. rewrite step_languages. destruct (Py.truthy _) eqn:Hext; [|done].
  apply map_Forall_insert_2; [by apply suffix_key|done].
Qed.

Lemma scan_blobs_languages_keys ps a :
  map_Forall (fun k _ => ext_key k) (languages a) ->
  map_Forall (fun k _ => ext_key k) (languages (fold_left scan_blob ps a)).
Proof.
  revert a. induction ps as [|p ps IH]; intros a Ha; simpl; [done|].
  apply IH. rewrite scan_blob_steps. by apply step_languages_keys.
Qed.

Lemma scan_files_languages_keys r fs a :
  map_Forall (fun k _ => ext_key k) (languages a) ->
  map_Forall (fun k _ => ext_key k) (languages (fold_left (scan_file r) fs a)).
Proof.
  revert a. induction fs as [|f fs IH]; intros a Ha; simpl; [done|].
  apply IH. rewrite scan_file_steps. by apply step_languages_keys.
Qed.

Lemma scan_dirs_languages_keys ts a :
  map_Forall (fun k _ => ext_key k) (languages a) ->
  map_Forall (fun k _ => ext_key k) (languages (fold_left scan_dir ts a)).
Proof.
  revert a. induction ts as [|[[r dirs] fs] ts IH]; intros a Ha; simpl; [done|].
  apply IH. case_match; simpl; by apply scan_files_languages_keys.
Qed.

(** ** A successful remote fetch *)

Lemma fetch_success net url tok a err log :
  run net (fetch_github_repo_structure url tok) = (Some a, err, log) ->
  exists r resp tree,
    net (tree_url (url_owner url) (url_repo url) (default_branch r))
        (auth_headers tok) = Responds resp
    /\ status_code resp = 200%Z
    /\ get_tree (json resp) = inr tree
    /\ a = scan_tree (initial_analysis url (url_owner url) r) tree
    /\ err = None.
Proof.
  unfold fetch_github_repo_structure, failed.
  fold (url_owner url). fold (url_repo url).
  destruct (negb (Py.contains _ _)); simpl; [congruence|].
  destruct (net (api_base _ _) _) as [resp1|e1]; simpl; [|congruence].
  destruct (negb (status_code resp1 =? 200)%Z); simpl.
  { destruct (get_message _); simpl; congruence. }
  destruct (get_repo_data _) as [e|r]; simpl; [congruence|].
  destruct (net (tree_url _ _ _) _) as [resp2|e2] eqn:Hnet; simpl; [|congruence].
  destruct (negb (status_code resp2 =? 200)%Z) eqn:Hst; simpl; [congruence|].
  destruct (get_tree _) as [e|tree] eqn:Htree; simpl; [congruence|].
  intros [= <- <- <-]. exists r, resp2, tree.
  apply negb_false_iff, Z.eqb_eq in Hst. done.
Qed.

(** ** The sample caps *)

(** The caps that hold: both sample lists of the remote analyzer, and
    the sampled files of the local analyzer. *)
Lemma sample_caps_hold :
  (forall url o r tree,
     length (files (scan_tree (initial_analysis url o r) tree)) <= 100
     /\ length (directories (scan_tree (initial_analysis url o r) tree)) <= 50)
  /\ (forall d, length (files (analyze_local_directory d)) <= 100).
Proof.
  split.
  - intros url o r tree. split.
    + rewrite scan_tree_files by (simpl; lia). rewrite length_take. lia.
    + rewrite scan_tree_directories by (simpl; lia). rewrite length_take. lia.
  - intros d. unfold analyze_local_directory.
    rewrite scan_dirs_files, capped_append by (simpl; lia).
    rewrite length_take. lia.
Qed.

(** C1.  The claim bounds [sampleDirectories] by 50 in both modes.  The
    local analyzer tests the bound once per walked directory and then
    appends all the sub-directories of that directory: on a directory
    with 51 sub-directories the summary lists 51 directories. *)
Theorem C1_local_directories_exceed_cap :
  length (directories (analyze_local_directory wide_dir)) = 51.
Proof. vm_compute. reflexivity. Qed.

(** ** Classification *)

(** C2, as stated, fails: ["requirements-test.txt"] is in none of the
    exact-match lists, and in both modes it sets the test flag and not
    the dependency-manifest flag. *)
Lemma C2_requirements_test_sets_has_tests :
  exact_match "requirements-test.txt" = false
  /\ has_tests (scan_blob (empty_analysis None) "requirements-test.txt") = true
  /\ has_requirements (scan_blob (empty_analysis None) "requirements-test.txt") = false
  /\ has_tests (scan_file "." (empty_analysis None) "requirements-test.txt") = true
  /\ has_requirements (scan_file "." (empty_analysis None) "requirements-test.txt")
     = false.
Proof. vm_compute. done. Qed.

(** C2, amended.  In both modes a file whose name matches one of the
    three exact-match lists leaves [has_tests] as it was.  The name
    ["requirements-test.txt"] matches none of them: it sets [has_tests]
    and leaves [has_requirements] and [config_files] as they were. *)
Theorem C2_exact_match_never_sets_has_tests :
  (forall a path,
     exact_match (Py.basename path) = true ->
     has_tests (scan_blob a path) = has_tests a)
  /\ (forall r a file,
        exact_match file = true ->
        has_tests (scan_file r a file) = has_tests a)
  /\ (forall a,
        has_tests (scan_blob a "requirements-test.txt") = true
        /\ has_requirements (scan_blob a "requirements-test.txt") = has_requirements a
        /\ config_files (scan_blob a "requirements-test.txt") = config_files a)
  /\ (forall r a,
        has_tests (scan_file r a "requirements-test.txt") = true
        /\ has_requirements (scan_file r a "requirements-test.txt") = has_requirements a
        /\ config_files (scan_file r a "requirements-test.txt") = config_files a).
Proof.
  repeat split.
  - intros a path Hm. by rewrite scan_blob_steps, step_has_tests, Hm.
  - intros r a file Hm. by rewrite scan_file_steps, step_has_tests, Hm.
  - rewrite scan_blob_steps. unfold sample_file. by case_match.
  - rewrite scan_blob_steps. unfold sample_file. by case_match.
  - rewrite scan_blob_steps. unfold sample_file. by case_match.
  - rewrite scan_file_steps. unfold sample_file. by case_match.
  - rewrite scan_file_steps. unfold sample_file. by case_match.
  - rewrite scan_file_steps. unfold sample_file. by case_match.
Qed.

Lemma C2_witness :
  exact_match (Py.basename "docs/Requirements.txt") = true
  /\ has_tests (scan_blob (empty_analysis None) "docs/Requirements.txt")
     = has_tests (empty_analysis None).
Proof.
  split; [reflexivity|].
  apply (proj1 C2_exact_match_never_sets_has_tests). reflexivity.
Defined.

(** ** The file count *)

(** C3.  In both modes [file_count] is the number of files observed and
    [files] holds the first 100 of them: for a successful remote fetch,
    the blob entries of the tree listing that the tree call returned; for
    a local scan, the files of the walked directories. *)
Theorem C3_file_count_counts_every_file :
  (forall net url tok a err log,
     run net (fetch_github_repo_structure url tok) = (Some a, err, log) ->
     exists r resp tree,
       net (tree_url (url_owner url) (url_repo url) (default_branch r))
           (auth_headers tok) = Responds resp
       /\ get_tree (json resp) = inr tree
       /\ file_count a = length (blob_paths tree)
       /\ files a = take 100 (blob_paths tree))
  /\ (forall d,
        file_count (analyze_local_directory d) = length (walked_files d)
        /\ files (analyze_local_directory d) = take 100 (walked_files d)).
Proof.
  split.
  - intros net url tok a err log Hrun.
    destruct (fetch_success _ _ _ _ _ _ Hrun) as (r & resp & tree & Hnet & _ & Htree & -> & _).
    exists r, resp, tree. repeat split; [done..| |].
    + by rewrite scan_tree_file_count.
    + by rewrite scan_tree_files by (simpl; lia).
  - intros d. unfold analyze_local_directory, walked_files. split.
    + by rewrite scan_dirs_file_count.
    + by rewrite scan_dirs_files, capped_append by (simpl; lia).
Qed.

Lemma C3_witness :
  exists r resp tree,
    widget_net
      (tree_url (url_owner "https://github.com/acme/widget")
         (url_repo "https://github.com/acme/widget") (default_branch r))
      (auth_headers None) = Responds resp
    /\ get_tree (json resp) = inr tree
    /\ file_count
         (scan_tree (initial_analysis "https://github.com/acme/widget" "acme" widget_repo)
            widget_tree)
       = length (blob_paths tree)
    /\ files
         (scan_tree (initial_analysis "https://github.com/acme/widget" "acme" widget_repo)
            widget_tree)
       = take 100 (blob_paths tree).
Proof.
  apply (proj1 C3_file_count_counts_every_file widget_net
           "https://github.com/acme/widget" None _ None
           ["https://api.github.com/repos/acme/widget";
            "https://api.github.com/repos/acme/widget/git/trees/main?recursive=1"]).
  vm_compute. reflexivity.
Defined.

(** ** The extension histogram, per file and per scan *)

(** C5.  In both modes, a key that a file adds to the histogram (or whose
    count it changes) is the lower-cased suffix of the file: a string
    without upper-case letters that begins with the dot.  A file with an
    empty suffix leaves the histogram as it was and adds one to
    [file_count].  Hence every key of the histogram of a remote or of a
    local summary is lower case and begins with the dot. *)
Theorem C5_histogram_keys :
  (forall a path k,
     languages (scan_blob a path) !! k <> languages a !! k ->
     k = Py.lower (Py.path_suffix path) /\ ext_key k)
  /\ (forall r a file k,
        languages (scan_file r a file) !! k <> languages a !! k ->
        k = Py.lower (Py.path_suffix file) /\ ext_key k)
  /\ (forall a path,
        Py.path_suffix path = "" ->
        languages (scan_blob a path) = languages a
        /\ file_count (scan_blob a path) = S (file_count a))
  /\ (forall r a file,
        Py.path_suffix file = "" ->
        languages (scan_file r a file) = languages a
        /\ file_count (scan_file r a file) = S (file_count a))
  /\ (forall url o r tree,
        map_Forall (fun k _ => ext_key k)
          (languages (scan_tree (initial_analysis url o r) tree)))
  /\ (forall d,
        map_Forall (fun k _ => ext_key k) (languages (analyze_local_directory d))).
Proof.
  split; [|split; [|split; [|split; [|split]]]].
  - intros a path k Hk. rewrite scan_blob_steps in Hk.
    by apply step_languages_changed in Hk.
  - intros r a file k Hk. rewrite scan_file_steps in Hk.
    by apply step_languages_changed in Hk.
  - intros a path Hext. split; [|apply scan_blob_file_count].
    by rewrite scan_blob_steps, step_languages, Hext.
  - intros r a file Hext. split; [|apply scan_file_file_count].
    by rewrite scan_file_steps, step_languages, Hext.
  - intros url o r tree. rewrite scan_tree_blobs. simpl.
    apply scan_blobs_languages_keys. simpl. apply map_Forall_empty.
  - intros d. apply scan_dirs_languages_keys. simpl. apply map_Forall_empty.
Qed.

Lemma C5_witness :
  (languages (scan_blob (empty_analysis None) "src/Main.PY") !! ".py"
   <> languages (empty_analysis None) !! ".py")
  /\ ".py" = Py.lower (Py.path_suffix "src/Main.PY")
  /\ ext_key ".py"
  /\ Py.path_suffix "Dockerfile" = ""
  /\ languages (scan_blob (empty_analysis None) "Dockerfile")
     = languages (empty_analysis None)
  /\ file_count (scan_blob (empty_analysis None) "Dockerfile")
     = S (file_count (empty_analysis None)).
Proof.
  assert (languages (scan_blob (empty_analysis None) "src/Main.PY") !! ".py"
          <> languages (empty_analysis None) !! ".py") as Hne
    by (vm_compute; discriminate).
  split; [exact Hne|].
  split; [exact (proj1 (proj1 C5_histogram_keys _ _ _ Hne))|].
  split; [exact (proj2 (proj1 C5_histogram_keys _ _ _ Hne))|].
  split; [reflexivity|].
  apply (proj1 (proj2 (proj2 C5_histogram_keys))). reflexivity.
Defined.

(** ** The deny-list *)

(** C6.  The nine names of the deny-list are not kept, and a local scan
    gives the summary of the directory without its deny-listed
    sub-directories, at every depth: [file_count] is the
    number of files outside them, and every sampled directory is the join
    of a walked directory with a name that is not on the deny-list.  A
    directory holding [index.js] and a [node_modules] sub-directory with
    any content has one file, no package manifest and no sampled
    directory. *)
Theorem C6_deny_listed_directories_are_not_walked :
  forallb (fun n => negb (kept n))
    [".git"; "node_modules"; "__pycache__"; "venv"; ".venv"; "dist"; "build";
     ".next"; ".idea"] = true
  /\ (forall d,
        analyze_local_directory d = analyze_local_directory (prune d)
        /\ clean (prune d) = true)
  /\ (forall d, file_count (analyze_local_directory d) = count_files (prune d))
  /\ (forall d, Forall kept_entry (directories (analyze_local_directory d)))
  /\ (forall modules,
        let a := analyze_local_directory
                   (Dir ["index.js"] [("node_modules", modules)]) in
        file_count a = 1 /\ has_package_json a = false /\ directories a = []
        /\ files a = ["./index.js"]).
Proof.
  split; [done|]. split; [|split; [|split]].
  - intros d. split; [|apply prune_clean].
    unfold analyze_local_directory. by rewrite walk_prune.
  - intros d. unfold analyze_local_directory.
    rewrite scan_dirs_file_count. simpl. apply walked_files_count.
  - intros d. unfold analyze_local_directory.
    apply scan_dirs_directories; [constructor|apply walk_dirs_kept].
  - intros modules a. subst a. unfold analyze_local_directory.
    rewrite <- walk_prune. vm_compute. done.
Qed.

(** ** The reference *)

Lemma contains_slash_cons a s :
  Py.contains (String a s) "/" = Ascii.eqb "/" a || Py.contains s "/".
Proof. cbn [Py.contains Py.startswith]. by destruct (Ascii.eqb "/" a). Qed.

Lemma no_slash_cons a s :
  Py.contains (String a s) "/" = false ->
  Ascii.eqb a "/" = false /\ Py.contains s "/" = false.
Proof.
  rewrite contains_slash_cons, Ascii.eqb_sym. by intros ?%orb_false_iff.
Qed.

Lemma split_cons_field s c : exists h t, Py.split s c = h :: t.
Proof.
  induction s as [|a s (h & t & IH)]; simpl; [by eexists _, _|].
  destruct (Ascii.eqb a c); [by eexists _, _|].
  rewrite IH. by eexists _, _.
Qed.

Lemma split_no_slash s : Py.contains s "/" = false -> Py.split s "/" = [s].
Proof.
  induction s as [|a s IH]; [done|].
  intros [Ha Hs]%no_slash_cons. simpl. by rewrite Ha, IH.
Qed.

Lemma append_cons a s t : String a s +:+ t = String a (s +:+ t).
Proof. done. Qed.

Lemma append_empty t : "" +:+ t = t.
Proof. done. Qed.

(** The first field of a string ends at its first slash. *)
Lemma split_first_field o rest :
  Py.contains o "/" = false ->
  Py.split (o +:+ "/" +:+ rest) "/" = o :: Py.split rest "/".
Proof.
  induction o as [|a o IH]; [done|].
  intros [Ha Ho]%no_slash_cons. rewrite append_cons. simpl.
  by rewrite Ha, IH.
Qed.

(** Without a slash in the reference, nothing is requested. *)
Lemma fetch_invalid url tok :
  Py.contains (url_parts url) "/" = false ->
  fetch_github_repo_structure url tok = Ret (None, Some "Invalid GitHub URL format").
Proof. intros H. unfold fetch_github_repo_structure. by rewrite H. Qed.

(** With one, the first request is for the metadata of owner and
    repository. *)
Lemma fetch_valid url tok :
  Py.contains (url_parts url) "/" = true ->
  exists k,
    fetch_github_repo_structure url tok
    = Get (api_base (url_owner url) (url_repo url)) (auth_headers tok) k.
Proof. intros H. unfold fetch_github_repo_structure. rewrite H. by eexists. Qed.

(** The two host prefixes are removed, whatever follows them. *)
Lemma url_parts_https rest :
  url_parts ("https://github.com/" +:+ rest) = url_parts rest.
Proof. done. Qed.

Lemma url_parts_http rest :
  url_parts ("http://github.com/" +:+ rest) = url_parts rest.
Proof. done. Qed.

Lemma startswith_slash s p :
  Py.startswith s p = true ->
  Py.contains p "/" = true ->
  Py.contains s "/" = true.
Proof.
  revert s. induction p as [|b p IH]; intros s; [done|].
  destruct s as [|a s]; [done|]. cbn [Py.startswith].
  destruct (Ascii.eqb_spec b a) as [->|]; [|done].
  intros Hs. rewrite !contains_slash_cons.
  intros [Hb|Hp]%orb_true_iff; [by rewrite Hb|].
  by rewrite (IH s Hs Hp), orb_true_r.
Qed.

(** A string without a slash holds no occurrence of a host prefix and
    has no slash to strip. *)
Lemma replace_no_slash s old new :
  Py.contains s "/" = false ->
  Py.contains old "/" = true ->
  Py.replace s old new = s.
Proof.
  unfold Py.replace. intros Hs Hold.
  induction s as [|a s IH]; [done|]. cbn [Py.replace_from].
  destruct (Py.startswith (String a s) old) eqn:Hst.
  { by rewrite (startswith_slash _ _ Hst Hold) in Hs. }
  apply no_slash_cons in Hs as [_ Hs]. by rewrite IH.
Qed.

Lemma lstrip_no_slash s : Py.contains s "/" = false -> Py.lstrip s "/" = s.
Proof.
  destruct s as [|a s]; [done|]. intros [Ha _]%no_slash_cons.
  simpl. by rewrite Ha.
Qed.

Lemma rstrip_no_slash s : Py.contains s "/" = false -> Py.rstrip s "/" = s.
Proof.
  induction s as [|a s IH]; [done|]. intros [Ha Hs]%no_slash_cons.
  simpl. rewrite IH, Ha by done. by destruct s.
Qed.

Lemma url_parts_no_slash s : Py.contains s "/" = false -> url_parts s = s.
Proof.
  intros Hs. unfold url_parts, Py.strip.
  rewrite (replace_no_slash s) by done.
  rewrite (replace_no_slash s) by done.
  by rewrite lstrip_no_slash, rstrip_no_slash.
Qed.

(** ** The order of the files *)

Lemma step_has_requirements p f e a :
  has_requirements (sample_file p (classify f (count_ext e (incr_file_count a))))
  = has_requirements a || Py.in_list (Py.lower f) requirements_names.
Proof. steps; by rewrite ?orb_true_r, ?orb_false_r. Qed.

Lemma step_has_package_json p f e a :
  has_package_json (sample_file p (classify f (count_ext e (incr_file_count a))))
  = has_package_json a
    || negb (Py.in_list (Py.lower f) requirements_names)
       && Py.in_list (Py.lower f) package_names.
Proof. steps; by rewrite ?orb_true_r, ?orb_false_r. Qed.

Lemma step_has_dockerfile p f e a :
  has_dockerfile (sample_file p (classify f (count_ext e (incr_file_count a))))
  = has_dockerfile a
    || negb (Py.in_list (Py.lower f) requirements_names)
       && negb (Py.in_list (Py.lower f) package_names)
       && Py.in_list (Py.lower f) docker_names.
Proof. steps; by rewrite ?orb_true_r, ?orb_false_r. Qed.

Lemma step_has_tests_or p f e a :
  has_tests (sample_file p (classify f (count_ext e (incr_file_count a))))
  = has_tests a
    || negb (exact_match f)
       && (Py.contains (Py.lower f) "test" || Py.startswith f "test_").
Proof.
  rewrite step_has_tests.
  destruct (exact_match f), (Py.contains _ _ || Py.startswith _ _); simpl;
    by rewrite ?orb_true_r, ?orb_false_r.
Qed.

Lemma step_tallies p f e a :
  tallies (sample_file p (classify f (count_ext e (incr_file_count a))))
  = (if Py.truthy e
     then <[e := default 0 (languages a !! e) + 1]> (languages a)
     else languages a,
     S (file_count a),
     has_requirements a || Py.in_list (Py.lower f) requirements_names,
     has_package_json a
     || negb (Py.in_list (Py.lower f) requirements_names)
        && Py.in_list (Py.lower f) package_names,
     has_dockerfile a
     || negb (Py.in_list (Py.lower f) requirements_names)
        && negb (Py.in_list (Py.lower f) package_names)
        && Py.in_list (Py.lower f) docker_names,
     has_tests a
     || negb (exact_match f)
        && (Py.contains (Py.lower f) "test" || Py.startswith f "test_")).
Proof.
  unfold tallies.
  by rewrite step_languages, step_file_count, step_has_requirements,
    step_has_package_json, step_has_dockerfile, step_has_tests_or.
Qed.

(** The tallies after a file depend on the tallies before it. *)
Lemma scan_blob_tallies a b p :
  tallies a = tallies b -> tallies (scan_blob a p) = tallies (scan_blob b p).
Proof.
  intros Hab. rewrite !scan_blob_steps, !step_tallies.
  unfold tallies in Hab. injection Hab as Hl Hn Hr Hp Hd Ht.
  by rewrite Hl, Hn, Hr, Hp, Hd, Ht.
Qed.

Lemma scan_blobs_tallies ps a b :
  tallies a = tallies b ->
  tallies (fold_left scan_blob ps a) = tallies (fold_left scan_blob ps b).
Proof.
  revert a b. induction ps as [|p ps IH]; intros a b Hab; simpl; [done|].
  by apply IH, scan_blob_tallies.
Qed.

(** Counting two extensions in either order gives the same histogram. *)
Lemma count_twice_commute (m : gmap string nat) (e1 e2 : string) :
  <[e2 := default 0 (<[e1 := default 0 (m !! e1) + 1]> m !! e2) + 1]>
    (<[e1 := default 0 (m !! e1) + 1]> m)
  = <[e1 := default 0 (<[e2 := default 0 (m !! e2) + 1]> m !! e1) + 1]>
      (<[e2 := default 0 (m !! e2) + 1]> m).
Proof.
  destruct (decide (e1 = e2)) as [->|Hne]; [done|].
  rewrite !lookup_insert_ne by done. by apply insert_insert_ne.
Qed.

Lemma scan_blob_swap a p q :
  tallies (scan_blob (scan_blob a p) q) = tallies (scan_blob (scan_blob a q) p).
Proof.
  rewrite !scan_blob_steps, !step_tallies.
  rewrite !step_languages, !step_file_count, !step_has_requirements,
    !step_has_package_json, !step_has_dockerfile, !step_has_tests_or.
  apply f_equal2;
    [apply f_equal2; [apply f_equal2; [apply f_equal2; [apply f_equal2|]|]|]|].
  - destruct (Py.truthy (Py.lower (Py.path_suffix p))),
      (Py.truthy (Py.lower (Py.path_suffix q))); try done.
    apply count_twice_commute.
  - done.
  - rewrite <- !orb_assoc. f_equal. apply orb_comm.
  - rewrite <- !orb_assoc. f_equal. apply orb_comm.
  - rewrite <- !orb_assoc. f_equal. apply orb_comm.
  - rewrite <- !orb_assoc. f_equal. apply orb_comm.
Qed.

(** The tallies of a listing do not depend on the order of its blobs. *)
Lemma scan_blobs_permutation ps qs a :
  Permutation ps qs ->
  tallies (fold_left scan_blob ps a) = tallies (fold_left scan_blob qs a).
Proof.
  intros Hperm. revert a.
  induction Hperm as [|p ps qs _ IH|p q ps|ps qs rs _ IH1 _ IH2]; intros a; simpl.
  - done.
  - apply IH.
  - apply scan_blobs_tallies, scan_blob_swap.
  - by rewrite IH1.
Qed.

(** ** The remote scenario *)

(** C4.  For the reference [https://github.com/acme/widget], when the
    metadata call succeeds and the tree call returns a listing whose blob
    entries are [requirements.txt], [src/main.py], [test_main.py] and
    [Dockerfile], in any order and among any directory entries, the fetch
    returns a summary with the dependency manifest, container definition
    and test flags set, four files and the histogram [.txt: 1, .py: 2]. *)
Theorem C4_widget_scenario net tok r tree :
  net (api_base "acme" "widget") (auth_headers tok)
  = Responds (Response 200 (JsonRepo r)) ->
  net (tree_url "acme" "widget" (default_branch r)) (auth_headers tok)
  = Responds (Response 200 (JsonTree tree)) ->
  Permutation (blob_paths tree)
    ["requirements.txt"; "src/main.py"; "test_main.py"; "Dockerfile"] ->
  exists a log,
    run net (fetch_github_repo_structure "https://github.com/acme/widget" tok)
    = (Some a, None, log)
    /\ has_requirements a = true
    /\ has_dockerfile a = true
    /\ has_tests a = true
    /\ file_count a = 4
    /\ languages a = {[ ".txt" := 1; ".py" := 2 ]}.
Proof.
  intros Hrepo Htree Hblobs.
  unfold fetch_github_repo_structure.
  change (url_parts "https://github.com/acme/widget") with "acme/widget".
  change (Py.split "acme/widget" "/") with ["acme"; "widget"].
  cbn [negb Py.contains Py.startswith Ascii.eqb Bool.eqb orb nth run].
  rewrite Hrepo. cbn [status_code json Z.eqb Pos.eqb negb get_repo_data run].
  rewrite Htree. cbn [status_code json Z.eqb Pos.eqb negb get_tree run].
  eexists _, _. split; [reflexivity|].
  rewrite scan_tree_blobs.
  pose proof (scan_blobs_permutation _ _
                (initial_analysis "https://github.com/acme/widget" "acme" r)
                Hblobs) as Htallies.
  unfold tallies at 1 in Htallies. cbn [with_directories has_requirements
    has_dockerfile has_tests file_count languages] in *.
  revert Htallies.
  generalize (fold_left scan_blob (blob_paths tree)
                (initial_analysis "https://github.com/acme/widget" "acme" r)).
  intros a. vm_compute. by intros [= -> -> -> _ -> ->].
Qed.

Lemma C4_witness :
  exists a log,
    run widget_net (fetch_github_repo_structure "https://github.com/acme/widget" None)
    = (Some a, None, log)
    /\ has_requirements a = true
    /\ has_dockerfile a = true
    /\ has_tests a = true
    /\ file_count a = 4
    /\ languages a = {[ ".txt" := 1; ".py" := 2 ]}.
Proof.
  apply (C4_widget_scenario widget_net None widget_repo widget_tree); reflexivity.
Defined.

(** ** Errors of the remote fetch *)

(** A refused metadata call: status code and provider message. *)
Lemma repo_call_error net url tok resp m :
  Py.contains (url_parts url) "/" = true ->
  net (api_base (url_owner url) (url_repo url)) (auth_headers tok) = Responds resp ->
  status_code resp <> 200%Z ->
  get_message (json resp) = inr m ->
  run net (fetch_github_repo_structure url tok)
  = (None, Some ("Error: " +:+ pretty (status_code resp) +:+ " - " +:+ m),
     [api_base (url_owner url) (url_repo url)]).
Proof.
  intros Hparts Hnet Hst Hm. unfold fetch_github_repo_structure.
  fold (url_owner url). fold (url_repo url).
  rewrite Hparts. cbn [negb run]. rewrite Hnet.
  apply Z.eqb_neq in Hst. rewrite Hst, Hm. done.
Qed.

(** A refused tree call: the status code alone, whatever the body. *)
Lemma tree_call_error net url tok resp1 r resp :
  Py.contains (url_parts url) "/" = true ->
  net (api_base (url_owner url) (url_repo url)) (auth_headers tok) = Responds resp1 ->
  status_code resp1 = 200%Z ->
  get_repo_data (json resp1) = inr r ->
  net (tree_url (url_owner url) (url_repo url) (default_branch r)) (auth_headers tok)
  = Responds resp ->
  status_code resp <> 200%Z ->
  run net (fetch_github_repo_structure url tok)
  = (None, Some ("Error fetching tree: " +:+ pretty (status_code resp)),
     [api_base (url_owner url) (url_repo url);
      tree_url (url_owner url) (url_repo url) (default_branch r)]).
Proof.
  intros Hparts Hnet1 Hst1 Hr Hnet Hst. unfold fetch_github_repo_structure.
  fold (url_owner url). fold (url_repo url).
  rewrite Hparts. cbn [negb run]. rewrite Hnet1, Hst1, Hr.
  cbn [Z.eqb Pos.eqb negb run]. rewrite Hnet.
  apply Z.eqb_neq in Hst. rewrite Hst. done.
Qed.

(** C7.  The claim has the error of either call carry the provider's
    message.  When the tree call is refused with status 403 and the
    message [API rate limit exceeded], the fetch fails with
    [Error fetching tree: 403], which does not hold the message. *)
Theorem C7_tree_error_drops_provider_message :
  limited_net (tree_url "acme" "widget" "main") (auth_headers None)
  = Responds (Response 403 (JsonMessage (Some "API rate limit exceeded")))
  /\ run limited_net
       (fetch_github_repo_structure "https://github.com/acme/widget" None)
     = (None, Some "Error fetching tree: 403",
        ["https://api.github.com/repos/acme/widget";
         "https://api.github.com/repos/acme/widget/git/trees/main?recursive=1"])
  /\ Py.contains "Error fetching tree: 403" "API rate limit exceeded" = false.
Proof. vm_compute. done. Qed.

(** C8.  A reference that has no slash once the host prefixes and the
    outer slashes are removed is refused with [Invalid GitHub URL format]
    and no summary, and nothing is requested.  This covers a slash-free
    name alone or after either host prefix, as in
    [https://github.com/onlyowner]. *)
Theorem C8_reference_without_slash_is_refused_before_any_request :
  (forall url tok,
     Py.contains (url_parts url) "/" = false ->
     fetch_github_repo_structure url tok
     = Ret (None, Some "Invalid GitHub URL format")
     /\ forall net,
          run net (fetch_github_repo_structure url tok)
          = (None, Some "Invalid GitHub URL format", []))
  /\ (forall rest tok,
        Py.contains rest "/" = false ->
        fetch_github_repo_structure rest tok
        = Ret (None, Some "Invalid GitHub URL format")
        /\ fetch_github_repo_structure ("https://github.com/" +:+ rest) tok
           = Ret (None, Some "Invalid GitHub URL format")
        /\ fetch_github_repo_structure ("http://github.com/" +:+ rest) tok
           = Ret (None, Some "Invalid GitHub URL format"))
  /\ (forall net tok,
        run net (fetch_github_repo_structure "https://github.com/onlyowner" tok)
        = (None, Some "Invalid GitHub URL format", [])).
Proof.
  split; [|split].
  - intros url tok Hparts. split; [by apply fetch_invalid|].
    intros net. by rewrite fetch_invalid.
  - intros rest tok Hrest. repeat split; apply fetch_invalid.
    + by rewrite url_parts_no_slash.
    + by rewrite url_parts_https, url_parts_no_slash.
    + by rewrite url_parts_http, url_parts_no_slash.
  - intros net tok. by rewrite fetch_invalid.
Qed.

Lemma C8_witness :
  Py.contains (url_parts "https://github.com/onlyowner") "/" = false
  /\ fetch_github_repo_structure "https://github.com/onlyowner" None
     = Ret (None, Some "Invalid GitHub URL format").
Proof.
  split; [reflexivity|].
  apply (proj1 C8_reference_without_slash_is_refused_before_any_request).
  reflexivity.
Defined.



(** ** The content of one file *)





(** * Further properties of the analyzers *)

(** ** Both loops as a fold of [file_step] *)

Lemma scan_blob_entry a p : scan_blob a p = file_step a (blob_entry p).
Proof. reflexivity. Qed.

Lemma scan_file_entry r a f : scan_file r a f = file_step a (file_entry r f).
Proof. reflexivity. Qed.

Lemma file_step_with_directories ds a x :
  file_step (with_directories ds a) x = with_directories ds (file_step a x).
Proof. apply step_with_directories. Qed.

Lemma file_steps_with_directories ds xs a :
  fold_left file_step xs (with_directories ds a)
  = with_directories ds (fold_left file_step xs a).
Proof.
  revert a. induction xs as [|x xs IH]; intros a; simpl; [done|].
  by rewrite file_step_with_directories, IH.
Qed.

Lemma scan_blobs_entries ps a :
  fold_left scan_blob ps a = fold_left file_step (map blob_entry ps) a.
Proof. revert a. induction ps as [|p ps IH]; intros a; simpl; [done|apply IH]. Qed.

Lemma scan_files_entries r fs a :
  fold_left (scan_file r) fs a = fold_left file_step (map (file_entry r) fs) a.
Proof. revert a. induction fs as [|f fs IH]; intros a; simpl; [done|apply IH]. Qed.

Lemma scan_tree_entries tree a :
  scan_tree a tree
  = with_directories (directories (scan_tree a tree))
      (fold_left file_step (remote_entries tree) a).
Proof. unfold remote_entries. rewrite <- scan_blobs_entries. apply scan_tree_blobs. Qed.

Lemma scan_dir_entries a t :
  scan_dir a t
  = with_directories (directories (scan_dir a t))
      (fold_left file_step (map (file_entry t.1.1) t.2) a).
Proof.
  destruct t as [[r dirs] fs]. unfold scan_dir. simpl.
  rewrite <- scan_files_entries.
  case_match; simpl; [done|]. by rewrite with_directories_same.
Qed.

Lemma scan_dirs_entries ts a :
  fold_left scan_dir ts a
  = with_directories (directories (fold_left scan_dir ts a))
      (fold_left file_step (flat_map (fun t => map (file_entry t.1.1) t.2) ts) a).
Proof.
  revert a. induction ts as [|t ts IH]; intros a; simpl.
  - by rewrite with_directories_same.
  - rewrite IH at 1. rewrite fold_left_app.
    rewrite (scan_dir_entries a t) at 2.
    by rewrite file_steps_with_directories, with_directories_twice.
Qed.

Lemma analyze_local_entries d :
  analyze_local_directory d
  = with_directories (directories (analyze_local_directory d))
      (fold_left file_step (local_entries d) (empty_analysis None)).
Proof. apply scan_dirs_entries. Qed.

(** ** What a fold of [file_step] computes *)

Lemma step_config_files p f e a :
  config_files (sample_file p (classify f (count_ext e (incr_file_count a))))
  = config_files a ++ (if exact_match f then [f] else []).
Proof. unfold exact_match. steps; by rewrite ?app_nil_r. Qed.

Lemma step_origin p f e a :
  origin (sample_file p (classify f (count_ext e (incr_file_count a)))) = origin a.
Proof. steps. Qed.

Lemma file_steps_config_files xs a :
  config_files (fold_left file_step xs a)
  = config_files a ++ List.filter exact_match (entry_names xs).
Proof.
  revert a. induction xs as [|x xs IH]; intros a; simpl; [by rewrite app_nil_r|].
  rewrite IH. unfold file_step. rewrite step_config_files.
  destruct (exact_match x.1.2); by rewrite <- app_assoc.
Qed.

Lemma file_steps_origin xs a : origin (fold_left file_step xs a) = origin a.
Proof.
  revert a. induction xs as [|x xs IH]; intros a; simpl; [done|].
  rewrite IH. apply step_origin.
Qed.

Lemma file_steps_file_count xs a :
  file_count (fold_left file_step xs a) = file_count a + length xs.
Proof.
  revert a. induction xs as [|x xs IH]; intros a; simpl; [lia|].
  rewrite IH. unfold file_step. rewrite step_file_count. lia.
Qed.

Lemma file_steps_flags xs a :
  has_requirements (fold_left file_step xs a)
  = has_requirements a
    || existsb (fun f => Py.in_list (Py.lower f) requirements_names) (entry_names xs)
  /\ has_package_json (fold_left file_step xs a)
     = has_package_json a
       || existsb (fun f => negb (Py.in_list (Py.lower f) requirements_names)
                            && Py.in_list (Py.lower f) package_names)
            (entry_names xs)
  /\ has_dockerfile (fold_left file_step xs a)
     = has_dockerfile a
       || existsb (fun f => negb (Py.in_list (Py.lower f) requirements_names)
                            && negb (Py.in_list (Py.lower f) package_names)
                            && Py.in_list (Py.lower f) docker_names)
            (entry_names xs)
  /\ has_tests (fold_left file_step xs a)
     = has_tests a || existsb test_name (entry_names xs).
Proof.
  revert a. induction xs as [|x xs IH]; intros a.
  { simpl. by rewrite !orb_false_r. }
  change (entry_names (x :: xs)) with (x.1.2 :: entry_names xs).
  cbn [fold_left existsb].
  destruct (IH (file_step a x)) as (-> & -> & -> & ->).
  unfold file_step, test_name.
  rewrite step_has_requirements, step_has_package_json, step_has_dockerfile,
    step_has_tests_or.
  by rewrite !orb_assoc.
Qed.

(** ** The histogram of a fold of [file_step] *)

Lemma histogram_total_insert (m : gmap string nat) (e : string) (n : nat) :
  m !! e = None -> histogram_total (<[e := n]> m) = n + histogram_total m.
Proof.
  intros He. unfold histogram_total.
  rewrite map_fold_insert_L; [done| |done]. intros. lia.
Qed.

Lemma histogram_total_delete (m : gmap string nat) (e : string) (n : nat) :
  m !! e = Some n -> histogram_total m = n + histogram_total (delete e m).
Proof.
  intros He. unfold histogram_total.
  rewrite (map_fold_delete_L _ _ e n m); [done| |done]. intros. lia.
Qed.

(** One more occurrence of an extension adds one to the total. *)
Lemma histogram_total_count (m : gmap string nat) (e : string) :
  histogram_total (<[e := default 0 (m !! e) + 1]> m) = S (histogram_total m).
Proof.
  destruct (m !! e) as [n|] eqn:He; simpl.
  - rewrite <- insert_delete_eq.
    rewrite histogram_total_insert by apply lookup_delete_eq.
    rewrite (histogram_total_delete m e n) by done. lia.
  - by rewrite histogram_total_insert.
Qed.

Lemma entry_extensions_cons x xs :
  entry_extensions (x :: xs)
  = if Py.truthy x.2 then x.2 :: entry_extensions xs else entry_extensions xs.
Proof. reflexivity. Qed.

Lemma file_step_languages a x :
  languages (file_step a x)
  = if Py.truthy x.2
    then <[x.2 := default 0 (languages a !! x.2) + 1]> (languages a)
    else languages a.
Proof. apply step_languages. Qed.

Lemma file_steps_total xs a :
  histogram_total (languages (fold_left file_step xs a))
  = histogram_total (languages a) + length (entry_extensions xs).
Proof.
  revert a. induction xs as [|x xs IH]; intros a; [simpl; lia|].
  cbn [fold_left]. rewrite IH, file_step_languages, entry_extensions_cons.
  destruct (Py.truthy x.2); [|done].
  rewrite histogram_total_count. simpl. lia.
Qed.

Lemma file_steps_size xs a :
  size (languages (fold_left file_step xs a))
  <= size (languages a) + length (entry_extensions xs).
Proof.
  revert a. induction xs as [|x xs IH]; intros a; [simpl; lia|].
  cbn [fold_left]. etrans; [apply IH|].
  rewrite file_step_languages, entry_extensions_cons.
  destruct (Py.truthy x.2); [|done].
  rewrite map_size_insert. simpl. destruct (languages a !! x.2); simpl; lia.
Qed.

Lemma occurrences_cons k e l :
  occurrences k (e :: l) = (if String.eqb k e then 1 else 0) + occurrences k l.
Proof. unfold occurrences. simpl. by destruct (String.eqb k e). Qed.

(** The count of a key is its count before plus its occurrences. *)
Lemma file_steps_lookup xs a k :
  languages (fold_left file_step xs a) !! k
  = if occurrences k (entry_extensions xs) =? 0 then languages a !! k
    else Some (default 0 (languages a !! k) + occurrences k (entry_extensions xs)).
Proof.
  revert a. induction xs as [|x xs IH]; intros a; [done|].
  cbn [fold_left]. rewrite IH, file_step_languages, entry_extensions_cons.
  destruct (Py.truthy x.2); [|done].
  rewrite occurrences_cons.
  destruct (String.eqb_spec k x.2) as [->|Hne].
  - rewrite !lookup_insert_eq. cbn [default Nat.add Nat.eqb].
    destruct (occurrences x.2 (entry_extensions xs) =? 0) eqn:Hocc.
    + apply Nat.eqb_eq in Hocc. rewrite Hocc. f_equal; lia.
    + unfold id. f_equal; lia.
  - by rewrite !lookup_insert_ne.
Qed.

Lemma entry_extensions_length xs : length (entry_extensions xs) <= length xs.
Proof.
  unfold entry_extensions.
  etrans; [apply List.filter_length_le|]. by rewrite length_map.
Qed.

Lemma entry_extensions_all xs :
  forallb (fun x => Py.truthy x.2) xs = true ->
  length (entry_extensions xs) = length xs.
Proof.
  induction xs as [|x xs IH]; [done|]. simpl.
  intros [Hx Hxs]%andb_true_iff.
  rewrite entry_extensions_cons, Hx. simpl. by rewrite IH.
Qed.

Lemma entry_extensions_some xs :
  forallb (fun x => Py.truthy x.2) xs = false ->
  length (entry_extensions xs) < length xs.
Proof.
  induction xs as [|x xs IH]; [done|]. simpl.
  rewrite entry_extensions_cons.
  destruct (Py.truthy x.2); simpl.
  - intros Hxs. specialize (IH Hxs). lia.
  - intros _. pose proof (entry_extensions_length xs). lia.
Qed.

(** ** Flags, configuration files and histogram of a summary *)

Lemma remote_entries_names tree :
  entry_names (remote_entries tree) = map Py.basename (blob_paths tree).
Proof. unfold entry_names, remote_entries. by rewrite map_map. Qed.

Lemma remote_entries_length tree : length (remote_entries tree) = length (blob_paths tree).
Proof. unfold remote_entries. by rewrite length_map. Qed.

(** X1.  [config_files] holds, in traversal order and without a cap, the
    names of all the files seen whose lower-cased name is on one of the
    three exact-match lists: the base names of the blob paths for a remote
    summary, the file names for a local one. *)
Theorem config_files_are_all_manifest_names :
  (forall url o r tree,
     config_files (scan_tree (initial_analysis url o r) tree)
     = List.filter exact_match (map Py.basename (blob_paths tree)))
  /\ (forall d,
        config_files (analyze_local_directory d)
        = List.filter exact_match (entry_names (local_entries d))).
Proof.
  split.
  - intros url o r tree. rewrite scan_tree_entries. simpl.
    by rewrite file_steps_config_files, remote_entries_names.
  - intros d. rewrite analyze_local_entries. simpl.
    by rewrite file_steps_config_files.
Qed.

(** X2.  Each marker flag of a summary tells whether some file seen
    reaches and matches its rule: the rules are tried in the order
    dependency manifest, package manifest, container definition, test
    name, and a file counts for the first rule it matches only. *)
Theorem flags_tell_whether_a_file_matched :
  (forall url o r tree,
     let a := scan_tree (initial_analysis url o r) tree in
     let names := map Py.basename (blob_paths tree) in
     has_requirements a
     = existsb (fun f => Py.in_list (Py.lower f) requirements_names) names
     /\ has_package_json a
        = existsb (fun f => negb (Py.in_list (Py.lower f) requirements_names)
                             && Py.in_list (Py.lower f) package_names) names
     /\ has_dockerfile a
        = existsb (fun f => negb (Py.in_list (Py.lower f) requirements_names)
                             && negb (Py.in_list (Py.lower f) package_names)
                             && Py.in_list (Py.lower f) docker_names) names
     /\ has_tests a = existsb test_name names)
  /\ (forall d,
        let a := analyze_local_directory d in
        let names := entry_names (local_entries d) in
        has_requirements a
        = existsb (fun f => Py.in_list (Py.lower f) requirements_names) names
        /\ has_package_json a
           = existsb (fun f => negb (Py.in_list (Py.lower f) requirements_names)
                                && Py.in_list (Py.lower f) package_names) names
        /\ has_dockerfile a
           = existsb (fun f => negb (Py.in_list (Py.lower f) requirements_names)
                                && negb (Py.in_list (Py.lower f) package_names)
                                && Py.in_list (Py.lower f) docker_names) names
        /\ has_tests a = existsb test_name names).
Proof.
  split.
  - intros url o r tree a names. subst a names.
    rewrite scan_tree_entries, <- remote_entries_names.
    cbn [with_directories has_requirements has_package_json has_dockerfile has_tests].
    apply (file_steps_flags (remote_entries tree) (initial_analysis url o r)).
  - intros d a names. subst a names. rewrite analyze_local_entries.
    cbn [with_directories has_requirements has_package_json has_dockerfile has_tests].
    apply (file_steps_flags (local_entries d) (empty_analysis None)).
Qed.

(** X3.  The histogram of a summary maps an extension to the number of
    files seen with that (non-empty, lower-cased) extension, and holds no
    other key: no count is zero. *)
Theorem histogram_counts_the_files_of_each_extension :
  (forall url o r tree k,
     languages (scan_tree (initial_analysis url o r) tree) !! k
     = let n := occurrences k (entry_extensions (remote_entries tree)) in
       if n =? 0 then None else Some n)
  /\ (forall d k,
        languages (analyze_local_directory d) !! k
        = let n := occurrences k (entry_extensions (local_entries d)) in
          if n =? 0 then None else Some n).
Proof.
  split.
  - intros url o r tree k. rewrite scan_tree_entries.
    cbn [with_directories languages]. by rewrite file_steps_lookup.
  - intros d k. rewrite analyze_local_entries.
    cbn [with_directories languages]. by rewrite file_steps_lookup.
Qed.

(** The totals of a fold from an empty summary. *)
Lemma file_steps_totals xs o :
  let a := fold_left file_step xs (empty_analysis o) in
  histogram_total (languages a) = length (entry_extensions xs)
  /\ size (languages a) <= histogram_total (languages a)
  /\ histogram_total (languages a) <= file_count a
  /\ (histogram_total (languages a) =? file_count a)
     = forallb (fun x => Py.truthy x.2) xs.
Proof.
  intros a. subst a.
  pose proof (file_steps_total xs (empty_analysis o)) as Htotal.
  pose proof (file_steps_size xs (empty_analysis o)) as Hsize.
  pose proof (file_steps_file_count xs (empty_analysis o)) as Hcount.
  pose proof (entry_extensions_length xs) as Hle.
  cbn [empty_analysis languages file_count] in *.
  rewrite map_size_empty in Hsize.
  change (histogram_total ∅) with 0 in Htotal.
  rewrite Htotal, Hcount. split; [done|]. split; [lia|]. split; [lia|].
  destruct (forallb _ xs) eqn:Hall.
  - apply entry_extensions_all in Hall. apply Nat.eqb_eq. lia.
  - apply entry_extensions_some in Hall. apply Nat.eqb_neq. lia.
Qed.

(** X4.  The counts of the histogram add up to the number of files seen
    that have an extension.  So the number of keys is at most that sum,
    the sum is at most [file_count], and the sum equals [file_count]
    exactly when every file seen has an extension. *)
Theorem histogram_total_is_the_number_of_files_with_extension :
  (forall url o r tree,
     let a := scan_tree (initial_analysis url o r) tree in
     histogram_total (languages a) = length (entry_extensions (remote_entries tree))
     /\ size (languages a) <= histogram_total (languages a)
     /\ histogram_total (languages a) <= file_count a
     /\ (histogram_total (languages a) =? file_count a)
        = forallb (fun x => Py.truthy x.2) (remote_entries tree))
  /\ (forall d,
        let a := analyze_local_directory d in
        histogram_total (languages a) = length (entry_extensions (local_entries d))
        /\ size (languages a) <= histogram_total (languages a)
        /\ histogram_total (languages a) <= file_count a
        /\ (histogram_total (languages a) =? file_count a)
           = forallb (fun x => Py.truthy x.2) (local_entries d)).
Proof.
  split.
  - intros url o r tree a. subst a. rewrite scan_tree_entries.
    cbn [with_directories languages file_count].
    apply (file_steps_totals (remote_entries tree)).
  - intros d a. subst a. rewrite analyze_local_entries.
    cbn [with_directories languages file_count].
    apply (file_steps_totals (local_entries d)).
Qed.

(** ** The sampled directories *)

(** X5.  The [directories] of a remote summary are the paths of the first
    50 entries of type [tree] of the listing, in order; an entry that is
    neither a blob nor a tree (a submodule) changes nothing. *)
Theorem remote_directories_are_the_first_tree_entries :
  (forall url o r tree,
     directories (scan_tree (initial_analysis url o r) tree)
     = take 50 (tree_paths tree))
  /\ (forall a ty path,
        ty = "blob" \/ ty = "tree" \/ scan_item a (TreeItem ty path) = a).
Proof.
  split.
  - intros url o r tree. by rewrite scan_tree_directories by (simpl; lia).
  - intros a ty path. unfold scan_item. simpl.
    destruct (String.eqb_spec ty "blob"); [by left|].
    destruct (String.eqb_spec ty "tree"); [by right; left|].
    by right; right.
Qed.

Lemma scan_dir_directories_length a t k :
  length t.1.2 <= k ->
  length (directories a) <= 49 + k ->
  length (directories (scan_dir a t)) <= 49 + k.
Proof.
  destruct t as [[r dirs] fs]. simpl. intros Ht Ha. unfold scan_dir.
  destruct (Nat.ltb_spec (length (directories (fold_left (scan_file r) fs a))) 50)
    as [Hlt|Hge]; simpl; rewrite scan_files_directories in *; [|done].
  rewrite length_app, length_map. lia.
Qed.

(** X6.  The [directories] of a local summary can pass 50 only by the
    sub-directories of one walked directory: when no walked directory has
    more than [k] kept sub-directories, the list has at most [49 + k]
    entries. *)
Theorem local_directories_bound d k :
  Forall (fun t => length t.1.2 <= k) (walk None d) ->
  length (directories (analyze_local_directory d)) <= 49 + k.
Proof.
  unfold analyze_local_directory.
  assert (length (directories (empty_analysis None)) <= 49 + k) as Hinit
    by (simpl; lia).
  revert Hinit. generalize (empty_analysis None). generalize (walk None d).
  intros ts. induction ts as [|t ts IH]; intros a Ha Hts; simpl; [done|].
  apply Forall_cons in Hts as [Ht Hts].
  apply IH; [by apply scan_dir_directories_length|done].
Qed.

Lemma local_directories_bound_witness :
  Forall (fun t => length t.1.2 <= 2)
    (walk None (Dir ["a.py"] [("src", Dir [] []); ("docs", Dir [] [])]))
  /\ length (directories
               (analyze_local_directory
                  (Dir ["a.py"] [("src", Dir [] []); ("docs", Dir [] [])])))
     <= 49 + 2.
Proof.
  assert (Forall (fun t => length t.1.2 <= 2)
            (walk None (Dir ["a.py"] [("src", Dir [] []); ("docs", Dir [] [])])))
    as Hwalk by (repeat constructor).
  split; [exact Hwalk|].
  exact (local_directories_bound _ 2 Hwalk).
Defined.

(** ** The order of a listing *)

Lemma filter_permutation {A : Type} (f : A -> bool) (l l' : list A) :
  Permutation l l' -> Permutation (List.filter f l) (List.filter f l').
Proof.
  induction 1 as [|x l l' _ IH|x y l|l l' l'' _ IH1 _ IH2]; simpl.
  - done.
  - destruct (f x); [by constructor|done].
  - destruct (f x), (f y); try done. apply perm_swap.
  - by etrans.
Qed.

(** X7.  The histogram, the file count and the four flags of a remote
    summary do not depend on the order of the entries of the listing. *)
Theorem remote_tallies_do_not_depend_on_order url o r tree tree' :
  Permutation tree tree' ->
  tallies (scan_tree (initial_analysis url o r) tree)
  = tallies (scan_tree (initial_analysis url o r) tree').
Proof.
  intros Hperm.
  rewrite (scan_tree_blobs tree), (scan_tree_blobs tree').
  change (tallies (with_directories ?ds ?a)) with (tallies a).
  apply scan_blobs_permutation. unfold blob_paths.
  by apply Permutation_map, filter_permutation.
Qed.

Lemma remote_tallies_do_not_depend_on_order_witness :
  Permutation
    [TreeItem "blob" "Dockerfile"; TreeItem "blob" "a/test_x.py"]
    [TreeItem "blob" "a/test_x.py"; TreeItem "blob" "Dockerfile"]
  /\ tallies (scan_tree (initial_analysis "u" "o" widget_repo)
               [TreeItem "blob" "Dockerfile"; TreeItem "blob" "a/test_x.py"])
     = tallies (scan_tree (initial_analysis "u" "o" widget_repo)
                  [TreeItem "blob" "a/test_x.py"; TreeItem "blob" "Dockerfile"]).
Proof.
  assert (Permutation
            [TreeItem "blob" "Dockerfile"; TreeItem "blob" "a/test_x.py"]
            [TreeItem "blob" "a/test_x.py"; TreeItem "blob" "Dockerfile"])
    as Hperm by apply perm_swap.
  split; [exact Hperm|].
  exact (remote_tallies_do_not_depend_on_order "u" "o" widget_repo _ _ Hperm).
Defined.

(** ** Outcomes and requests of the remote fetch *)

(** X8.  A remote fetch returns either a summary and no error, or no
    summary and a non-empty error text: never both, never neither, so
    the caller's [if error:] tells the two apart. *)
Theorem fetch_returns_a_summary_or_an_error net url tok :
  match (run net (fetch_github_repo_structure url tok)).1 with
  | (Some _, None) => True
  | (None, Some e) => Py.truthy e = true
  | _ => False
  end.
Proof.
  unfold fetch_github_repo_structure, failed.
  destruct (negb (Py.contains _ _)); [done|]. cbn [run].
  destruct (net _ _) as [resp1|e1]; [|done].
  destruct (negb (status_code resp1 =? 200)%Z).
  { by destruct (get_message _). }
  destruct (get_repo_data _) as [e|r]; [done|]. cbn [run].
  destruct (net _ _) as [resp2|e2]; [|done].
  destruct (negb (status_code resp2 =? 200)%Z); [done|].
  by destruct (get_tree _).
Qed.

(** X9.  A remote fetch performs at most two requests, first for the
    metadata of the owner and repository read from the reference, then for
    the tree of a branch of that repository; both go to
    [https://api.github.com/repos/].  A fetch that returns a summary has
    performed exactly the two. *)
Theorem fetch_requests net url tok :
  let result := (run net (fetch_github_repo_structure url tok)).1 in
  let log := (run net (fetch_github_repo_structure url tok)).2 in
  let o := url_owner url in
  let r := url_repo url in
  Forall (fun u => Py.startswith u "https://api.github.com/repos/" = true) log
  /\ match result.1 with
     | Some _ => exists branch, log = [api_base o r; tree_url o r branch]
     | None =>
         log = [] \/ log = [api_base o r]
         \/ exists branch, log = [api_base o r; tree_url o r branch]
     end.
Proof.
  unfold fetch_github_repo_structure, failed.
  fold (url_owner url). fold (url_repo url).
  destruct (negb (Py.contains _ _)); [by split; [constructor|left]|]. cbn [run].
  destruct (net _ _) as [resp1|e1];
    [|by split; [repeat constructor|right; left]].
  destruct (negb (status_code resp1 =? 200)%Z).
  { destruct (get_message _); by split; [repeat constructor|right; left]. }
  destruct (get_repo_data _) as [e|r];
    [by split; [repeat constructor|right; left]|]. cbn [run].
  destruct (net _ _) as [resp2|e2];
    [|by split; [repeat constructor|right; right; eexists]].
  destruct (negb (status_code resp2 =? 200)%Z);
    [by split; [repeat constructor|right; right; eexists]|].
  destruct (get_tree _);
    by split; [repeat constructor|first [by eexists|right; right; eexists]].
Qed.

Lemma scan_tree_origin tree a : origin (scan_tree a tree) = origin a.
Proof.
  rewrite scan_tree_entries. cbn [with_directories origin].
  apply file_steps_origin.
Qed.



(** ** Canonical references *)

Lemma startswith_trans s p x :
  Py.startswith s p = true -> Py.startswith p x = true -> Py.startswith s x = true.
Proof.
  revert s p. induction x as [|c x IH]; intros s p; [done|].
  destruct p as [|b p]; [done|]. destruct s as [|a s]; [done|].
  cbn [Py.startswith].
  destruct (Ascii.eqb_spec b a) as [->|]; [|done].
  destruct (Ascii.eqb_spec c a) as [->|]; [apply IH|done].
Qed.

Lemma contains_cons a s x :
  Py.contains (String a s) x = Py.startswith (String a s) x || Py.contains s x.
Proof. done. Qed.

Lemma startswith_contains s p x :
  Py.startswith s p = true -> Py.contains p x = true -> Py.contains s x = true.
Proof.
  revert s. induction p as [|b p IH]; intros s Hsp Hpx.
  - destruct x; [by destruct s|done].
  - destruct s as [|a s]; [done|].
    rewrite contains_cons in Hpx |- *.
    apply orb_true_iff in Hpx as [Hpx|Hpx].
    + by rewrite (startswith_trans _ _ _ Hsp Hpx).
    + cbn [Py.startswith] in Hsp.
      destruct (Ascii.eqb b a); [|done].
      by rewrite (IH s Hsp Hpx), orb_true_r.
Qed.

(** Replacing a string that cannot occur changes nothing. *)
Lemma replace_absent s old new x :
  Py.contains s x = false ->
  Py.contains old x = true ->
  Py.replace s old new = s.
Proof.
  unfold Py.replace. intros Hs Hold.
  induction s as [|a s IH]; [done|]. cbn [Py.replace_from].
  destruct (Py.startswith (String a s) old) eqn:Hst.
  { by rewrite (startswith_contains _ _ _ Hst Hold) in Hs. }
  rewrite contains_cons in Hs. apply orb_false_iff in Hs as [_ Hs].
  by rewrite IH.
Qed.

Lemma no_slash_no_double_slash s :
  Py.contains s "/" = false -> Py.contains s "//" = false.
Proof.
  induction s as [|a s IH]; [done|]. intros [Ha Hs]%no_slash_cons.
  rewrite contains_cons, IH by done. cbn [Py.startswith].
  rewrite Ascii.eqb_sym, Ha. done.
Qed.

Lemma no_slash_startswith s :
  Py.contains s "/" = false -> Py.startswith s "/" = false.
Proof.
  destruct s as [|a s]; [done|]. intros [Ha _]%no_slash_cons.
  cbn [Py.startswith]. by rewrite Ascii.eqb_sym, Ha.
Qed.

Lemma no_double_slash_after o rest :
  Py.contains o "/" = false ->
  Py.startswith rest "/" = false ->
  Py.contains rest "//" = false ->
  Py.contains (o +:+ "/" +:+ rest) "//" = false.
Proof.
  intros Ho Hstart Hrest. induction o as [|a o IH].
  - change ("" +:+ "/" +:+ rest) with (String "/" rest).
    rewrite contains_cons, Hrest.
    change (Py.startswith (String "/" rest) "//") with (Py.startswith rest "/").
    by rewrite Hstart.
  - apply no_slash_cons in Ho as [Ha Ho]. rewrite append_cons, contains_cons.
    rewrite IH by done. cbn [Py.startswith]. by rewrite Ascii.eqb_sym, Ha.
Qed.

Lemma startswith_app_slash r :
  Py.truthy r = true -> Py.contains r "/" = false ->
  Py.startswith (r +:+ "/") "/" = false.
Proof.
  destruct r as [|a r]; [done|]. intros _ [Ha _]%no_slash_cons.
  rewrite append_cons. cbn [Py.startswith]. by rewrite Ascii.eqb_sym, Ha.
Qed.

Lemma lstrip_name o rest :
  Py.truthy o = true -> Py.contains o "/" = false ->
  Py.lstrip (o +:+ rest) "/" = o +:+ rest.
Proof.
  destruct o as [|a o]; [done|]. intros _ [Ha _]%no_slash_cons.
  rewrite append_cons. simpl. by rewrite Ha.
Qed.

Lemma rstrip_truthy_app x y :
  Py.truthy (Py.rstrip y "/") = true ->
  Py.rstrip (x +:+ y) "/" = x +:+ Py.rstrip y "/".
Proof.
  intros Hy. induction x as [|a x IH]; [done|].
  rewrite !append_cons. cbn [Py.rstrip]. rewrite IH.
  destruct (x +:+ Py.rstrip y "/") eqn:Hxy; [|done].
  destruct x; [|done]. rewrite append_empty in Hxy. by rewrite Hxy in Hy.
Qed.

Lemma rstrip_app_slash y : Py.rstrip (y +:+ "/") "/" = Py.rstrip y "/".
Proof.
  induction y as [|a y IH]; [done|].
  rewrite append_cons. cbn [Py.rstrip]. by rewrite IH.
Qed.

Lemma rstrip_name r :
  Py.truthy r = true -> Py.contains r "/" = false ->
  Py.rstrip r "/" = r /\ Py.truthy (Py.rstrip r "/") = true.
Proof. intros Hr Hs. by rewrite rstrip_no_slash. Qed.

(** The reference [o/r] is its own stripped form, also with one trailing
    slash. *)
Lemma url_parts_owner_repo o r :
  Py.truthy o = true -> Py.contains o "/" = false ->
  Py.truthy r = true -> Py.contains r "/" = false ->
  url_parts (o +:+ "/" +:+ r) = o +:+ "/" +:+ r
  /\ url_parts (o +:+ "/" +:+ r +:+ "/") = o +:+ "/" +:+ r.
Proof.
  intros Ho Hos Hr Hrs. unfold url_parts, Py.strip.
  destruct (rstrip_name r Hr Hrs) as [Hstrip Htruthy].
  assert (Py.contains (o +:+ "/" +:+ r) "//" = false) as H1.
  { apply no_double_slash_after; [done|by apply no_slash_startswith|].
    by apply no_slash_no_double_slash. }
  assert (Py.contains (o +:+ "/" +:+ r +:+ "/") "//" = false) as H2.
  { apply no_double_slash_after; [done|by apply startswith_app_slash|].
    by apply (no_double_slash_after r ""). }
  split.
  - rewrite (replace_absent (o +:+ "/" +:+ r) "https://github.com/" "" "//") by done.
    rewrite (replace_absent (o +:+ "/" +:+ r) "http://github.com/" "" "//") by done.
    rewrite lstrip_name by done.
    rewrite rstrip_truthy_app by (rewrite rstrip_truthy_app by done; by destruct r).
    by rewrite rstrip_truthy_app, Hstrip by done.
  - rewrite (replace_absent (o +:+ "/" +:+ r +:+ "/") "https://github.com/" "" "//")
      by done.
    rewrite (replace_absent (o +:+ "/" +:+ r +:+ "/") "http://github.com/" "" "//")
      by done.
    rewrite lstrip_name by done.
    assert (Py.rstrip (r +:+ "/") "/" = r) as Hrs' by (by rewrite rstrip_app_slash).
    rewrite rstrip_truthy_app
      by (rewrite rstrip_truthy_app by (by rewrite Hrs'); by destruct r).
    rewrite rstrip_truthy_app by (by rewrite Hrs'). by rewrite Hrs'.
Qed.

Lemma contains_slash_between o rest : Py.contains (o +:+ "/" +:+ rest) "/" = true.
Proof.
  induction o as [|a o IH]; [done|].
  by rewrite append_cons, contains_slash_cons, IH, orb_true_r.
Qed.

Lemma fields_of_owner_repo url o r :
  Py.contains o "/" = false -> Py.contains r "/" = false ->
  url_parts url = o +:+ "/" +:+ r ->
  Py.contains (url_parts url) "/" = true /\ url_owner url = o /\ url_repo url = r.
Proof.
  intros Ho Hr Hparts. unfold url_owner, url_repo. rewrite Hparts.
  split; [apply contains_slash_between|].
  by rewrite split_first_field, split_no_slash.
Qed.

(** X11.  For a non-empty owner [o] and repository name [r] without
    slashes, the references [o/r], [https://github.com/o/r] and
    [http://github.com/o/r], each also with one trailing slash, all name
    owner [o] and repository [r]: the first request of the fetch is for
    [https://api.github.com/repos/o/r]. *)
Theorem canonical_references_name_owner_and_repository o r tok url :
  Py.truthy o = true -> Py.contains o "/" = false ->
  Py.truthy r = true -> Py.contains r "/" = false ->
  In url [o +:+ "/" +:+ r;
          "https://github.com/" +:+ o +:+ "/" +:+ r;
          "http://github.com/" +:+ o +:+ "/" +:+ r;
          o +:+ "/" +:+ r +:+ "/";
          "https://github.com/" +:+ o +:+ "/" +:+ r +:+ "/";
          "http://github.com/" +:+ o +:+ "/" +:+ r +:+ "/"] ->
  url_owner url = o /\ url_repo url = r
  /\ exists k,
       fetch_github_repo_structure url tok
       = Get (api_base o r) (auth_headers tok) k.
Proof.
  intros Ho Hos Hr Hrs Hurl.
  destruct (url_parts_owner_repo o r Ho Hos Hr Hrs) as [Hplain Hslash].
  assert (url_parts url = o +:+ "/" +:+ r) as Hparts.
  { simpl in Hurl.
    destruct Hurl as [<-|[<-|[<-|[<-|[<-|[<-|[]]]]]]];
      rewrite ?url_parts_https, ?url_parts_http; done. }
  destruct (fields_of_owner_repo url o r Hos Hrs Hparts) as (Hc & Howner & Hrepo).
  split; [done|]. split; [done|].
  destruct (fetch_valid url tok Hc) as [k Hk]. exists k.
  by rewrite Hk, Howner, Hrepo.
Qed.

Lemma canonical_references_name_owner_and_repository_witness :
  url_owner "http://github.com/acme/widget/" = "acme"
  /\ url_repo "http://github.com/acme/widget/" = "widget"
  /\ exists k,
       fetch_github_repo_structure "http://github.com/acme/widget/" None
       = Get (api_base "acme" "widget") (auth_headers None) k.
Proof.
  apply (canonical_references_name_owner_and_repository "acme" "widget" None
           "http://github.com/acme/widget/");
    [reflexivity..|].
  simpl. right; right; right; right; right; left. reflexivity.
Defined.

(** ** [read_local_file] *)












Example read_local_file_two_lines :
  read_local_file three_lines_disk "notes.txt" 2
  = Some ("one" +:+ String "010"%char "two" +:+ String "010"%char "").
Proof. reflexivity. Qed.

Example read_local_file_negative :
  read_local_file three_lines_disk "notes.txt" (-1)
  = Some ("one" +:+ String "010"%char "two" +:+ String "010"%char "").
Proof. reflexivity. Qed.

(** ** The page after a fetch *)

(** X13.  The page shown after a fetch never raises: a failed fetch shows
    its error, a successful one stores the summary and shows its metrics,
    where the number of languages is at most the number of files. *)
Theorem fetch_page_never_raises net url tok :
  match show_fetch_result (run net (fetch_github_repo_structure url tok)).1 with
  | ErrorShown e _ =>
      (run net (fetch_github_repo_structure url tok)).1 = (None, Some e)
  | RepositoryShown a files_metric languages_metric _ _ _ _ =>
      (run net (fetch_github_repo_structure url tok)).1 = (Some a, None)
      /\ files_metric = file_count a
      /\ languages_metric <= files_metric
  | PageRaises => False
  end.
Proof.
  unfold fetch_github_repo_structure, failed.
  destruct (negb (Py.contains _ _)); [done|]. cbn [run].
  destruct (net _ _) as [resp1|e1]; [|done].
  destruct (negb (status_code resp1 =? 200)%Z).
  { by destruct (get_message _). }
  destruct (get_repo_data _) as [e|r]; [done|]. cbn [run].
  destruct (net _ _) as [resp2|e2]; [|done].
  destruct (negb (status_code resp2 =? 200)%Z); [done|].
  destruct (get_tree _) as [e|tree]; [done|].
  cbn [run fst show_fetch_result]. rewrite scan_tree_origin.
  cbn [initial_analysis empty_analysis origin].
  split; [done|]. split; [done|].
  rewrite scan_tree_entries. cbn [with_directories languages file_count].
  destruct (file_steps_totals (remote_entries tree)
              (origin (initial_analysis url
                         (nth 0 (Py.split (url_parts url) "/") "") r)))
    as (_ & Hsize & Htotal & _).
  etrans; [exact Hsize|exact Htotal].
Qed.

(** ** The token tip *)

Lemma lower_app s t : Py.lower (s +:+ t) = Py.lower s +:+ Py.lower t.
Proof. induction s as [|a s IH]; [done|]. rewrite append_cons. simpl. by rewrite IH. Qed.

Lemma contains_app_r s t x : Py.contains t x = true -> Py.contains (s +:+ t) x = true.
Proof.
  intros Ht. induction s as [|a s IH]; [done|].
  by rewrite append_cons, contains_cons, IH, orb_true_r.
Qed.

(** A text without the letter r does not mention a rate limit. *)
Lemma avoids_r_no_rate_limit t :
  avoids (fun c => Ascii.eqb c "r") t = true ->
  Py.contains t "rate limit" = false.
Proof.
  induction t as [|a t IH]; [done|]. simpl avoids.
  intros [Ha Ht]%andb_true_iff. apply negb_true_iff in Ha.
  rewrite contains_cons, IH by done. cbn [Py.startswith].
  rewrite Ascii.eqb_sym, Ha. done.
Qed.

Lemma lower_avoids_r s :
  avoids (fun c => Ascii.eqb c "r" || Ascii.eqb c "R") s = true ->
  avoids (fun c => Ascii.eqb c "r") (Py.lower s) = true.
Proof.
  induction s as [|a s IH]; [done|]. simpl.
  intros [Ha Hs]%andb_true_iff. rewrite IH by done.
  rewrite andb_true_r. revert Ha. clear.
  by destruct a as [[] [] [] [] [] [] [] []].
Qed.

(** The decimal text of a number has no letter r. *)
Lemma pretty_N_go_avoids x s :
  avoids (fun c => Ascii.eqb c "r" || Ascii.eqb c "R") s = true ->
  avoids (fun c => Ascii.eqb c "r" || Ascii.eqb c "R") (pretty_N_go x s) = true.
Proof.
  revert s. induction (N.lt_wf_0 x) as [x _ IH]; intros s Hs.
  assert (x = 0 \/ 0 < x)%N as [->|Hx] by lia.
  - by rewrite pretty_N_go_0.
  - rewrite pretty_N_go_step by done. apply IH; [by apply N.div_lt|].
    simpl. rewrite Hs, andb_true_r.
    unfold pretty_N_char. by repeat case_match.
Qed.

Lemma pretty_Z_avoids (z : Z) :
  avoids (fun c => Ascii.eqb c "r" || Ascii.eqb c "R") (pretty z) = true.
Proof.
  assert (forall p : positive,
            avoids (fun c => Ascii.eqb c "r" || Ascii.eqb c "R") (pretty p) = true)
    as Hpos.
  { intros p. unfold pretty, pretty_positive, pretty, pretty_N.
    case_decide; [done|]. by apply pretty_N_go_avoids. }
  destruct z as [|p|p]; [done|apply Hpos|].
  change (pretty (Z.neg p)) with ("-" +:+ pretty p).
  rewrite append_cons, append_empty. simpl. apply Hpos.
Qed.

Lemma tree_error_no_rate_limit (z : Z) :
  Py.contains (Py.lower ("Error fetching tree: " +:+ pretty z)) "rate limit" = false.
Proof.
  rewrite lower_app.
  pose proof (avoids_r_no_rate_limit _ (lower_avoids_r _ (pretty_Z_avoids z))) as Hrest.
  revert Hrest. generalize (Py.lower (pretty z)). intros t Ht.
  change (Py.lower "Error fetching tree: ") with "error fetching tree: ".
  rewrite !append_cons, append_empty.
  repeat (rewrite contains_cons; cbn [Py.startswith];
          match goal with
          | |- context [Ascii.eqb ?a ?b] =>
              change (Ascii.eqb a b) with false || change (Ascii.eqb a b) with true
          end; cbn [orb]).
  done.
Qed.

(** The two refusals are shown, with the tip decided on the lower-cased
    text. *)
Lemma show_repo_error p m :
  show_fetch_result (None, Some ("Error: " +:+ p +:+ " - " +:+ m))
  = ErrorShown ("Error: " +:+ p +:+ " - " +:+ m)
      (Py.contains (Py.lower ("Error: " +:+ p +:+ " - " +:+ m)) "rate limit").
Proof. reflexivity. Qed.

Lemma show_tree_error p :
  show_fetch_result (None, Some ("Error fetching tree: " +:+ p))
  = ErrorShown ("Error fetching tree: " +:+ p)
      (Py.contains (Py.lower ("Error fetching tree: " +:+ p)) "rate limit").
Proof. reflexivity. Qed.

(** X14.  The page gives the token tip when the lower-cased error
    mentions a rate limit.  After a refused metadata call it does so
    whenever the provider's message mentions one, in any letter case;
    after a refused tree call it never does, since that error holds the
    status code only. *)
Theorem token_tip_follows_the_provider_message net url tok :
  Py.contains (url_parts url) "/" = true ->
  (forall resp m,
     net (api_base (url_owner url) (url_repo url)) (auth_headers tok)
     = Responds resp ->
     status_code resp <> 200%Z ->
     get_message (json resp) = inr m ->
     Py.contains (Py.lower m) "rate limit" = true ->
     show_fetch_result (run net (fetch_github_repo_structure url tok)).1
     = ErrorShown ("Error: " +:+ pretty (status_code resp) +:+ " - " +:+ m) true)
  /\ (forall resp1 r resp,
        net (api_base (url_owner url) (url_repo url)) (auth_headers tok)
        = Responds resp1 ->
        status_code resp1 = 200%Z ->
        get_repo_data (json resp1) = inr r ->
        net (tree_url (url_owner url) (url_repo url) (default_branch r))
            (auth_headers tok) = Responds resp ->
        status_code resp <> 200%Z ->
        show_fetch_result (run net (fetch_github_repo_structure url tok)).1
        = ErrorShown ("Error fetching tree: " +:+ pretty (status_code resp)) false).
Proof.
  intros Hparts. split.
  - intros resp m Hnet Hst Hm Hlimit.
    rewrite (repo_call_error _ _ _ _ _ Hparts Hnet Hst Hm).
    cbn [fst]. rewrite show_repo_error, !lower_app.
    by rewrite (contains_app_r _ _ _
                  (contains_app_r _ _ _ (contains_app_r _ _ _ Hlimit))).
  - intros resp1 r resp Hnet1 Hst1 Hr Hnet Hst.
    rewrite (tree_call_error _ _ _ _ _ _ Hparts Hnet1 Hst1 Hr Hnet Hst).
    cbn [fst]. by rewrite show_tree_error, tree_error_no_rate_limit.
Qed.

Lemma token_tip_follows_the_provider_message_witness :
  Py.contains (url_parts "https://github.com/acme/widget") "/" = true
  /\ show_fetch_result
       (run refusing_net
          (fetch_github_repo_structure "https://github.com/acme/widget" None)).1
     = ErrorShown "Error: 403 - API rate limit exceeded for 10.0.0.1" true
  /\ show_fetch_result
       (run limited_net
          (fetch_github_repo_structure "https://github.com/acme/widget" None)).1
     = ErrorShown "Error fetching tree: 403" false.
Proof.
  split; [reflexivity|]. split.
  - apply (proj1 (token_tip_follows_the_provider_message refusing_net
                    "https://github.com/acme/widget" None eq_refl)
             (Response 403 (JsonMessage (Some "API rate limit exceeded for 10.0.0.1")))
             "API rate limit exceeded for 10.0.0.1");
      [reflexivity|discriminate|reflexivity|reflexivity].
  - apply (proj2 (token_tip_follows_the_provider_message limited_net
                    "https://github.com/acme/widget" None eq_refl)
             (Response 200 (JsonRepo widget_repo)) widget_repo
             (Response 403 (JsonMessage (Some "API rate limit exceeded"))));
      [reflexivity|reflexivity|reflexivity|reflexivity|discriminate].
Defined.

(** ** The test rule *)

Lemma startswith_lower s p :
  Py.startswith s p = true -> Py.startswith (Py.lower s) (Py.lower p) = true.
Proof.
  revert s. induction p as [|b p IH]; intros s; [done|].
  destruct s as [|a s]; [done|]. cbn [Py.startswith Py.lower].
  destruct (Ascii.eqb_spec b a) as [->|]; [|done].
  rewrite Ascii.eqb_refl. apply IH.
Qed.

Lemma startswith_contains_self s p : Py.startswith s p = true -> Py.contains s p = true.
Proof. intros H. destruct s; simpl; by rewrite H. Qed.

(** A name that begins with [test_] contains [test] once lower-cased. *)
Lemma test_prefix_is_substring f :
  Py.startswith f "test_" = true -> Py.contains (Py.lower f) "test" = true.
Proof.
  intros Hf. apply startswith_lower in Hf.
  apply startswith_contains_self.
  by apply (startswith_trans _ (Py.lower "test_")).
Qed.

(** No name of the three exact-match lists contains [test]. *)
Lemma exact_match_no_test f :
  exact_match f = true -> Py.contains (Py.lower f) "test" = false.
Proof.
  unfold exact_match. rewrite !orb_true_iff, !in_list_In.
  unfold requirements_names, package_names, docker_names. simpl.
  intros [[H|H]|H]; repeat (destruct H as [<-|H]; [done|]); done.
Qed.

Lemma test_name_is_substring f : test_name f = Py.contains (Py.lower f) "test".
Proof.
  unfold test_name.
  destruct (Py.contains (Py.lower f) "test") eqn:Hc.
  - destruct (exact_match f) eqn:Hm; [|done].
    by rewrite (exact_match_no_test f Hm) in Hc.
  - destruct (Py.startswith f "test_") eqn:Hs.
    + by rewrite (test_prefix_is_substring f Hs) in Hc.
    + by rewrite andb_false_r.
Qed.

Lemma existsb_ext_eq {A : Type} (f g : A -> bool) (l : list A) :
  (forall x, f x = g x) -> existsb f l = existsb g l.
Proof. intros Hfg. induction l as [|x l IH]; simpl; [done|]. by rewrite Hfg, IH. Qed.

(** X15.  [has_tests] is set exactly when the lower-cased name of some
    file seen contains [test]: the [startswith('test_')] alternative adds
    nothing, and the precedence of the three exact-match rules hides
    nothing, since none of their names contains [test]. *)
Theorem has_tests_is_the_substring_rule :
  (forall f,
     (Py.contains (Py.lower f) "test" || Py.startswith f "test_")
     = Py.contains (Py.lower f) "test")
  /\ (forall f, exact_match f && Py.contains (Py.lower f) "test" = false)
  /\ (forall url o r tree,
        has_tests (scan_tree (initial_analysis url o r) tree)
        = existsb (fun f => Py.contains (Py.lower f) "test")
            (map Py.basename (blob_paths tree)))
  /\ (forall d,
        has_tests (analyze_local_directory d)
        = existsb (fun f => Py.contains (Py.lower f) "test")
            (entry_names (local_entries d))).
Proof.
  split; [|split; [|split]].
  - intros f. destruct (Py.startswith f "test_") eqn:Hs; [|by rewrite orb_false_r].
    by rewrite (test_prefix_is_substring f Hs).
  - intros f. destruct (exact_match f) eqn:Hm; [|done].
    by rewrite (exact_match_no_test f Hm).
  - intros url o r tree. rewrite scan_tree_entries, <- remote_entries_names.
    cbn [with_directories has_tests].
    destruct (file_steps_flags (remote_entries tree) (initial_analysis url o r))
      as (_ & _ & _ & ->).
    apply existsb_ext_eq, test_name_is_substring.
  - intros d. rewrite analyze_local_entries. cbn [with_directories has_tests].
    destruct (file_steps_flags (local_entries d) (empty_analysis None))
      as (_ & _ & _ & ->).
    apply existsb_ext_eq, test_name_is_substring.
Qed.

(** ** Short file contents *)



